(** * que-ans-bot: the OCR -> LLM fill -> PDF -> Q&A pipeline of [app93.py]

    A shallow embedding of the functions of [src/app93.py] and of the
    Streamlit script around them, with the properties of the pipeline
    stated over it.

    - Python [str] values are lists of Unicode code points.
    - The external services (pdf2image, pytesseract, the HTTP endpoint)
      are oracles collected in a [world] record.
    - Effects (session state, UI calls, calls to the services, exceptions)
      are threaded through a small state/writer/error monad. *)

From Stdlib Require Import String Ascii List ZArith NArith Bool Lia.
From Equations Require Import Equations.
Import ListNotations.

(* ===================================================================== *)
(** ** Python strings *)
(* ===================================================================== *)

Module PyStr.

(** A Python [str]: a sequence of Unicode code points; [len] is [length],
    [s[:n]] is [firstn n s] and [s[n:]] is [skipn n s]. *)
Definition char := N.
Definition str := list char.

(** An ASCII literal as a [str]. *)
Definition lit (s : string) : str :=
  map N_of_ascii (list_ascii_of_string s).

Definition NL : char := 10%N.
Definition nl : str := [NL].

(** U+274C, the cross mark that opens every error message of the program. *)
Definition cross_mark : char := 10060%N.

(** [str.isspace] on one code point: CPython's [_PyUnicode_IsWhitespace]
    (bidirectional type WS, B or S, or category Zs). *)
Definition is_space (c : char) : bool :=
  ((9 <=? c) && (c <=? 13) || (28 <=? c) && (c <=? 32)
   || (c =? 133) || (c =? 160) || (c =? 5760)
   || (8192 <=? c) && (c <=? 8202)
   || (c =? 8232) || (c =? 8233) || (c =? 8239) || (c =? 8287)
   || (c =? 12288))%N.

(** [s.lstrip()], [s.rstrip()] and [s.strip()] with no argument. *)
Fixpoint lstrip (s : str) : str :=
  match s with
  | c :: s' => if is_space c then lstrip s' else s
  | [] => []
  end.

Definition rstrip (s : str) : str := rev (lstrip (rev s)).

Definition strip (s : str) : str := rstrip (lstrip s).

(** [text.split("\n")]: never empty, [""] splits into [[""]]. *)
Fixpoint split_nl (s : str) : list str :=
  match s with
  | [] => [[]]
  | c :: s' =>
      if (c =? NL)%N then [] :: split_nl s'
      else match split_nl s' with
           | l :: ls => (c :: l) :: ls
           | [] => [[c]]
           end
  end.

(** Truth value of a [str]: non-empty. *)
Definition nonempty (s : str) : bool :=
  match s with [] => false | _ :: _ => true end.

End PyStr.
Import PyStr.

(* ===================================================================== *)
(** ** PDF Renderer: [generate_pdf] *)
(* ===================================================================== *)

Module Renderer.

(** The calls made on the reportlab canvas, in order.  The canvas is
    write-only, so the buffer that [generate_pdf] returns is modelled by
    the list of these calls. *)
Inductive canvas_op : Type :=
| SetFont (name : string) (size : Z)
| DrawString (x y : Z) (s : str)
| ShowPage
| Save.

(** [reportlab.lib.pagesizes.LETTER] is [(8.5 * 72, 11 * 72)] points.  The
    cursor [y] only ever takes integral values obtained from [height] by
    adding and subtracting 12, 30 and 40, which floats represent exactly;
    it is an integer here. *)
Definition LETTER : Z * Z := (612, 792)%Z.
Definition height : Z := snd LETTER.

(** The wrap loop
<<
        while len(line) > 110:
            c.drawString(40, y, line[:110])
            line = line[110:]
            y -= 12
>>
    returns the calls it made, the rest of the line and the cursor. *)
Equations? wrap_loop (line : str) (y : Z) : list canvas_op * str * Z
  by wf (length line) lt :=
  wrap_loop line y with lt_dec 110 (length line) => {
    | left _ =>
        let '(ops, rest, y') := wrap_loop (skipn 110 line) (y - 12) in
        (DrawString 40 y (firstn 110 line) :: ops, rest, y');
    | right _ => ([], line, y) }.
Proof.
  change (length (skipn 110 line) < length line).
  rewrite length_skipn. lia.
Qed.

(** One iteration of [for line in text.split("\n")]: the calls made and
    the cursor afterwards.  A blank line takes the [continue] and skips
    the page test. *)
Definition render_line (y : Z) (line : str) : list canvas_op * Z :=
  if negb (nonempty (strip line)) then ([], y - 12)%Z
  else
    let '(ops, rest, y1) := wrap_loop line y in
    let ops := ops ++ [DrawString 40 y1 (strip rest)] in
    let y2 := (y1 - 12)%Z in
    if (y2 <? 40)%Z
    then (ops ++ [ShowPage; SetFont "Helvetica" 10], height - 40)%Z
    else (ops, y2).

Fixpoint render_lines (y : Z) (lines : list str) : list canvas_op :=
  match lines with
  | [] => []
  | line :: rest =>
      let '(ops, y') := render_line y line in
      ops ++ render_lines y' rest
  end.

(** The cursor after the lines have been processed. *)
Fixpoint cursor_after (y : Z) (lines : list str) : Z :=
  match lines with
  | [] => y
  | line :: rest => cursor_after (snd (render_line y line)) rest
  end.

Definition title : str := lit "AI-Filled Form".

Definition header : list canvas_op :=
  [SetFont "Helvetica-Bold" 14; DrawString 40 (height - 40) title;
   SetFont "Helvetica" 10].

(** The cursor when the first line is processed. *)
Definition y0 : Z := (height - 40 - 30)%Z.

Definition generate_pdf (text : str) : list canvas_op :=
  header ++ render_lines y0 (split_nl text) ++ [Save].

(** The width at which lines are wrapped, and [ceil(a / b)]. *)
Definition wrap_width : nat := 110.

Definition ceil_div (a b : nat) : nat := (a + b - 1) / b.

(** The strings drawn, in order, and the positions they are drawn at. *)
Fixpoint drawn (ops : list canvas_op) : list str :=
  match ops with
  | [] => []
  | DrawString _ _ s :: ops' => s :: drawn ops'
  | _ :: ops' => drawn ops'
  end.

Fixpoint drawn_at (ops : list canvas_op) : list Z :=
  match ops with
  | [] => []
  | DrawString _ y _ :: ops' => y :: drawn_at ops'
  | _ :: ops' => drawn_at ops'
  end.

(** What the wrap loop has done when it stops: it has drawn full-width
    chunks of the line, one per call, each 12 below the one before, and
    what is left is a non-empty rest of at most 110 characters. *)
Record wrapped (line : str) (y : Z) (ops : list canvas_op) (rest : str)
  (y' : Z) : Prop := {
  wrapped_concat : concat (drawn ops) ++ rest = line;
  wrapped_chunks : Forall (fun s => length s = 110) (drawn ops);
  wrapped_all_drawn : length (drawn ops) = length ops;
  wrapped_rest : length rest <= 110;
  wrapped_rest_pos : 0 < length line -> 0 < length rest;
  wrapped_count :
    0 < length line -> S (length ops) = ceil_div (length line) wrap_width;
  wrapped_cursor : y' = (y - 12 * Z.of_nat (length ops))%Z
}.

End Renderer.

Import Renderer.

(* ===================================================================== *)
(** ** Python values, exceptions and the effects of the script *)
(* ===================================================================== *)

Module Py.

(** What the program stores and passes around is a [str], except for the
    value that [response.json()['choices'][0]['message']['content']]
    yields, which is whatever the remote service put there.  Of an object
    that is not a [str] the program observes its truth value, its
    rendering by [str()] inside an f-string, and that it has no [split]. *)
Inductive pyval : Type :=
| PStr (s : str)
| PObj (truth : bool) (rendering : str).

Definition truthy (v : pyval) : bool :=
  match v with
  | PStr s => nonempty s
  | PObj b _ => b
  end.

Definition is_str (v : pyval) : bool :=
  match v with
  | PStr _ => true
  | PObj _ _ => false
  end.

(** [f"{v}"]. *)
Definition format (v : pyval) : str :=
  match v with
  | PStr s => s
  | PObj _ r => r
  end.

(** An instance of [Exception]: its class and its [str()] rendering. *)
Record exn : Type := Exn { exn_class : string; exn_str : str }.

Definition bytes := list N.

(** A page image produced by pdf2image; only handed on to pytesseract. *)
Definition image := list N.

(** The HTTP request of [requests.post(url, headers=..., json=...)]. *)
Record chat_message : Type :=
  Message { role : str; content : str }.

(** Sampling temperatures are decimal fractions, kept in tenths. *)
Record chat_request : Type := ChatRequest {
  req_url : str;
  req_authorization : str;
  req_content_type : str;
  req_model : str;
  req_messages : list chat_message;
  req_temperature_tenths : Z;
  req_max_tokens : Z
}.

(** The [requests.Response]: [status_code], [text], and the outcome of
    evaluating [response.json()['choices'][0]['message']['content']] on
    it, which raises (a decoding error, [KeyError], [IndexError],
    [TypeError]) or yields the value found there. *)
Record response : Type := Response {
  status_code : Z;
  text : str;
  json_content : exn + pyval
}.

(** The external services and the configuration read from the
    environment at start-up.  [os.getenv("GROQ_API_KEY")] is [None] when
    the variable is unset; [GROQ_MODEL] has a default and is always a
    [str]. *)
Record world : Type := World {
  GROQ_API_KEY : option str;
  GROQ_MODEL : str;
  convert_from_bytes : bytes -> exn + list image;
  image_to_string : image -> exn + str;
  requests_post : chat_request -> exn + response
}.

Definition default_model : str := lit "llama3-8b-8192".

End Py.
Import Py.

Module Effects.

(** One Q&A entry, [{"question": ..., "answer": ...}]. *)
Record qa_entry : Type := QA { question : str; answer : pyval }.

(** [st.session_state] after the three [setdefault] calls: the slots
    exist from the first run on, and [setdefault] leaves them alone on
    every later run. *)
Record session_state : Type := SessionState {
  ocr_text : str;
  filled_text : pyval;
  qa_history : list qa_entry
}.

Definition initial_state : session_state :=
  {| ocr_text := []; filled_text := PStr []; qa_history := [] |}.

(** What a run does that can be seen from outside: entries into the three
    components that talk to a service, the calls to the services, and the
    Streamlit calls that show a result.  Spinners, headings and styling
    are presentation and are left out. *)
Inductive event : Type :=
| Enter_pdf_to_text (pdf : bytes)
| Enter_groq_fill_missing (t : str)
| Enter_groq_answer_question (t : pyval) (q : str)
| Call_convert_from_bytes (pdf : bytes)
| Call_image_to_string (img : image)
| Call_requests_post (req : chat_request)
| St_error (msg : str)
| St_text_area (label : str) (value : pyval)
| St_download_button (file_name : str) (data : list canvas_op)
| St_markdown (body : str)
| St_success (body : str).

(** Sequencing, shared by the two kinds of computation below. *)
Class Monad (m : Type -> Type) : Type := {
  ret : forall {A : Type}, A -> m A;
  bind : forall {A B : Type}, m A -> (A -> m B) -> m B
}.

Class Effect (m : Type -> Type) : Type := {
  emit : event -> m unit;
  raise : forall {A : Type}, exn -> m A
}.

(** A function of the program that keeps no state ([pdf_to_text], the two
    clients): it emits events and returns or raises.  The events of a
    computation that raises are kept. *)
Definition W (A : Type) : Type := (exn + A) * list event.

#[export] Instance Monad_W : Monad W := {|
  ret := fun A a => (inr a, []);
  bind := fun A B c k =>
    match c with
    | (inl e, t1) => (inl e, t1)
    | (inr a, t1) =>
        match k a with
        | (r, t2) => (r, t1 ++ t2)
        end
    end
|}.

#[export] Instance Effect_W : Effect W := {|
  emit := fun ev => ((inr tt, [ev]) : W unit);
  raise := fun A e => ((inl e, []) : W A)
|}.

(** [try: c  except Exception as e: h e]. *)
Definition try_except {A} (c : W A) (h : exn -> W A) : W A :=
  match c with
  | (inl e, t1) =>
      match h e with
      | (r, t2) => (r, t1 ++ t2)
      end
  | (inr a, t1) => (inr a, t1)
  end.

(** The result of a call to a service: returned or raised. *)
Definition outcome {A} (r : exn + A) : W A :=
  match r with
  | inl e => raise e
  | inr a => ret a
  end.

(** The script reads and writes the session state besides.  The state of
    a run that raises is kept: Streamlit keeps [st.session_state] when a
    run dies. *)
Definition M (A : Type) : Type :=
  session_state -> (exn + A) * session_state * list event.

#[export] Instance Monad_M : Monad M := {|
  ret := fun A a s => (inr a, s, []);
  bind := fun A B c k s =>
    match c s with
    | (inl e, s1, t1) => (inl e, s1, t1)
    | (inr a, s1, t1) =>
        match k a s1 with
        | (r, s2, t2) => (r, s2, t1 ++ t2)
        end
    end
|}.

#[export] Instance Effect_M : Effect M := {|
  emit := fun ev => ((fun s => (inr tt, s, [ev])) : M unit);
  raise := fun A e => ((fun s => (inl e, s, [])) : M A)
|}.

Definition get : M session_state := fun s => (inr s, s, []).

Definition put (s' : session_state) : M unit := fun _ => (inr tt, s', []).

(** A call of a stateless function from the script. *)
Definition call {A} (c : W A) : M A := fun s => (fst c, s, snd c).

Definition when (b : bool) (c : M unit) : M unit :=
  if b then c else ret tt.

(** [for x in xs: body x]. *)
Fixpoint for_each {A} (xs : list A) (body : A -> M unit) : M unit :=
  match xs with
  | [] => ret tt
  | x :: xs' => bind (body x) (fun _ => for_each xs' body)
  end.

Declare Scope py_scope.
Delimit Scope py_scope with py.
Notation "x <- c ;; k" := (bind c (fun x => k))
  (at level 61, c at next level, right associativity) : py_scope.
Notation "c ;; k" := (bind c (fun _ => k))
  (at level 61, right associativity) : py_scope.

End Effects.
Import Effects.
Local Open Scope py_scope.

(* ===================================================================== *)
(** ** Text Extractor: [pdf_to_text] *)
(* ===================================================================== *)

Module Extractor.

Definition pdf_error (e : exn) : str :=
  cross_mark :: lit " PDF processing error: " ++ exn_str e.

(** The loop [for img in images: text += image_to_string(img) + "\n"]. *)
Fixpoint ocr_pages (w : world) (images : list image) (text : str) : W str :=
  match images with
  | [] => ret text
  | img :: rest =>
      emit (Call_image_to_string img) ;;
      t <- outcome (image_to_string w img) ;;
      ocr_pages w rest (text ++ (t ++ nl))
  end.

(** [pdf_file] is the content that [pdf_file.read()] returns. *)
Definition pdf_to_text (w : world) (pdf_file : bytes) : W str :=
  emit (Enter_pdf_to_text pdf_file) ;;
  try_except
    (emit (Call_convert_from_bytes pdf_file) ;;
     images <- outcome (convert_from_bytes w pdf_file) ;;
     ocr_pages w images [])
    (fun e =>
       emit (St_error (pdf_error e)) ;;
       ret []).

(** The text that the extractor returns for a document (it never
    raises, see [pdf_to_text_returns]). *)
Definition ocr_output (w : world) (pdf_file : bytes) : str :=
  match fst (pdf_to_text w pdf_file) with
  | inr t => t
  | inl _ => []
  end.

(** Page [img] is read as [t]. *)
Definition reads (w : world) (img : image) (t : str) : Prop :=
  image_to_string w img = inr t.

End Extractor.
Import Extractor.

(* ===================================================================== *)
(** ** Form Completion and Question-Answering clients *)
(* ===================================================================== *)

Module Clients.

Definition endpoint : str :=
  lit "https://api.groq.com/openai/v1/chat/completions".

(** [f"Bearer {GROQ_API_KEY}"]; an unset key renders as [None]. *)
Definition bearer (w : world) : str :=
  lit "Bearer " ++ match GROQ_API_KEY w with
                   | Some k => k
                   | None => lit "None"
                   end.

Definition api_error (body : str) : str :=
  cross_mark :: lit " Groq API error: " ++ body.

Definition request_failed (e : exn) : str :=
  cross_mark :: lit " Request failed: " ++ exn_str e.

Definition fill_prompt (text : str) : str :=
  nl ++ lit "You are an expert form assistant. The scanned form text below has missing values like 'N/A', 'nan', or '---'."
     ++ nl ++ lit "Please fill missing values realistically and preserve the original layout."
     ++ nl ++ nl ++ lit "--- FORM START ---"
     ++ nl ++ text
     ++ nl ++ lit "--- FORM END ---" ++ nl.

Definition fill_request (w : world) (text : str) : chat_request :=
  {| req_url := endpoint;
     req_authorization := bearer w;
     req_content_type := lit "application/json";
     req_model := GROQ_MODEL w;
     req_messages := [Message (lit "user") (fill_prompt text)];
     req_temperature_tenths := 3;
     req_max_tokens := 1500 |}.

Definition groq_fill_missing (w : world) (text : str) : W pyval :=
  emit (Enter_groq_fill_missing text) ;;
  let data := fill_request w text in
  try_except
    (emit (Call_requests_post data) ;;
     response <- outcome (requests_post w data) ;;
     if (status_code response =? 200)%Z
     then outcome (json_content response)
     else ret (PStr (api_error (Py.text response))))
    (fun e => ret (PStr (request_failed e))).

Definition answer_prompt (text : pyval) (question : str) : str :=
  nl ++ lit "You are reading an AI-filled scanned form."
     ++ nl ++ nl ++ lit "Form Content:"
     ++ nl ++ format text
     ++ nl ++ nl ++ lit "Answer the following question:"
     ++ nl ++ question ++ nl.

Definition answer_request (w : world) (text : pyval) (question : str)
  : chat_request :=
  {| req_url := endpoint;
     req_authorization := bearer w;
     req_content_type := lit "application/json";
     req_model := GROQ_MODEL w;
     req_messages := [Message (lit "user") (answer_prompt text question)];
     req_temperature_tenths := 4;
     req_max_tokens := 600 |}.

Definition groq_answer_question (w : world) (text : pyval) (question : str)
  : W pyval :=
  emit (Enter_groq_answer_question text question) ;;
  let data := answer_request w text question in
  try_except
    (emit (Call_requests_post data) ;;
     response <- outcome (requests_post w data) ;;
     if (status_code response =? 200)%Z
     then outcome (json_content response)
     else ret (PStr (api_error (Py.text response))))
    (fun e => ret (PStr (request_failed e))).

End Clients.
Import Clients.

(* ===================================================================== *)
(** ** Session Orchestrator: one run of the script, and a session *)
(* ===================================================================== *)

Module Session.

(** What the widgets return in one run: the uploaded file (or [None]),
    whether the fill button was clicked, and the content of the question
    box.  A widget that the run does not reach is not consulted. *)
Record widgets : Type := Widgets {
  uploaded : option bytes;
  fill_button : bool;
  question_input : str
}.

(** Assignments to the three slots. *)
Definition with_ocr_text (s : session_state) (t : str) : session_state :=
  {| ocr_text := t;
     filled_text := filled_text s;
     qa_history := qa_history s |}.

Definition with_filled_text (s : session_state) (v : pyval) : session_state :=
  {| ocr_text := ocr_text s;
     filled_text := v;
     qa_history := qa_history s |}.

(** [qa_history.append(item)]. *)
Definition with_appended (s : session_state) (item : qa_entry)
  : session_state :=
  {| ocr_text := ocr_text s;
     filled_text := filled_text s;
     qa_history := qa_history s ++ [item] |}.

Definition set_ocr_text (t : str) : M unit :=
  s <- get ;; put (with_ocr_text s t).

Definition set_filled_text (v : pyval) : M unit :=
  s <- get ;; put (with_filled_text s v).

Definition append_qa (item : qa_entry) : M unit :=
  s <- get ;; put (with_appended s item).

(** [generate_pdf(text)] as the script calls it: the argument is whatever
    the session holds, and an object that is not a [str] has no [split]
    (the message of the error is not observed by the program). *)
Definition call_generate_pdf (text : pyval) : M (list canvas_op) :=
  match text with
  | PStr s => ret (generate_pdf s)
  | PObj _ _ => raise (Exn "AttributeError" (lit "split"))
  end.

(** [# --- Upload & OCR ---] *)
Definition upload_and_ocr (w : world) (ui : widgets) : M unit :=
  match uploaded ui with
  | Some pdf_file =>
      s <- get ;;
      when (negb (nonempty (ocr_text s)))
        (t <- call (pdf_to_text w pdf_file) ;;
         set_ocr_text t)
  | None => ret tt
  end.

(** [# --- Show Extracted Text ---] *)
Definition show_extracted_text (w : world) (ui : widgets) : M unit :=
  s <- get ;;
  when (nonempty (ocr_text s))
    (emit (St_text_area (lit "Scanned Text") (PStr (ocr_text s))) ;;
     when (fill_button ui)
       (s <- get ;;
        v <- call (groq_fill_missing w (ocr_text s)) ;;
        set_filled_text v)).

(** [# --- Show AI-Filled Output ---] *)
Definition show_filled_output (w : world) (ui : widgets) : M unit :=
  s <- get ;;
  when (truthy (filled_text s))
    (emit (St_text_area (lit "AI-Filled Text") (filled_text s)) ;;
     pdf_buffer <- call_generate_pdf (filled_text s) ;;
     emit (St_download_button (lit "AI_Filled_Form.pdf") pdf_buffer) ;;
     let question := question_input ui in
     when (nonempty question)
       (s <- get ;;
        answer <- call (groq_answer_question w (filled_text s) question) ;;
        append_qa (QA question answer))).

Definition show_question (item : qa_entry) : str :=
  lit "**Q:** " ++ question item.

Definition show_answer (item : qa_entry) : str :=
  lit "**A:** " ++ format (answer item).

(** [# --- Q&A History ---] *)
Definition show_qa_history : M unit :=
  s <- get ;;
  when (match qa_history s with [] => false | _ :: _ => true end)
    (for_each (rev (qa_history s))
       (fun item =>
          emit (St_markdown (show_question item)) ;;
          emit (St_success (show_answer item)))).

(** One run of the script, top to bottom. *)
Definition script (w : world) (ui : widgets) : M unit :=
  upload_and_ocr w ui ;;
  show_extracted_text w ui ;;
  show_filled_output w ui ;;
  show_qa_history.

(** A session: the state kept between runs and everything seen so far.
    Each interaction re-runs the script in the world as it is then. *)
Definition session : Type := session_state * list event.

Definition interaction : Type := world * widgets.

Definition rerun (ses : session) (i : interaction) : session :=
  match script (fst i) (snd i) (fst ses) with
  | (_, s', evs) => (s', snd ses ++ evs)
  end.

Definition session_from (ses : session) (runs : list interaction) : session :=
  fold_left rerun runs ses.

Definition new_session : session := (initial_state, []).

Definition session_after (runs : list interaction) : session :=
  session_from new_session runs.

(** Counting events in a trace. *)
Definition is_extraction (ev : event) : bool :=
  match ev with Enter_pdf_to_text _ => true | _ => false end.

Definition is_error_report (ev : event) : bool :=
  match ev with St_error _ => true | _ => false end.

Definition is_call (ev : event) : bool :=
  match ev with
  | Call_convert_from_bytes _ | Call_image_to_string _
  | Call_requests_post _ => true
  | _ => false
  end.

Definition is_fill (ev : event) : bool :=
  match ev with Enter_groq_fill_missing _ => true | _ => false end.

Definition is_ask (ev : event) : bool :=
  match ev with Enter_groq_answer_question _ _ => true | _ => false end.

Definition is_history_line (ev : event) : bool :=
  match ev with St_markdown _ | St_success _ => true | _ => false end.

Definition count (p : event -> bool) (t : list event) : nat :=
  length (filter p t).

(** The lines that display the history [h], first line first. *)
Definition history_lines (h : list qa_entry) : list event :=
  flat_map (fun item => [St_markdown (show_question item);
                         St_success (show_answer item)]) h.

(** What one run from state [s] does, where the run ends with [r] in state
    [s'] after the events [evs]. *)
Record run_facts (w : world) (ui : widgets) (s : session_state)
  (r : exn + unit) (s' : session_state) (evs : list event) : Prop := {
  run_ocr_text :
    ocr_text s' =
    if nonempty (ocr_text s) then ocr_text s
    else match uploaded ui with
         | Some pdf => ocr_output w pdf
         | None => []
         end;
  run_extractions :
    count is_extraction evs =
    match uploaded ui with
    | Some _ => if nonempty (ocr_text s) then 0 else 1
    | None => 0
    end;
  run_errors : count is_error_report evs <= count is_extraction evs;
  run_error_unconvertible :
    forall pdf e,
      uploaded ui = Some pdf ->
      nonempty (ocr_text s) = false ->
      convert_from_bytes w pdf = inl e ->
      count is_error_report evs = 1;
  run_fill_argument :
    forall t, In (Enter_groq_fill_missing t) evs ->
              t = ocr_text s' /\ nonempty t = true;
  run_filled_text :
    filled_text s' = filled_text s \/ nonempty (ocr_text s') = true;
  run_history :
    exists new, qa_history s' = qa_history s ++ new
                /\ length new = count is_ask evs;
  run_asks :
    count is_ask evs =
    if truthy (filled_text s') && is_str (filled_text s')
       && nonempty (question_input ui)
    then 1 else 0;
  run_display :
    filter is_history_line evs =
    match r with
    | inr _ => history_lines (rev (qa_history s'))
    | inl _ => []
    end
}.

End Session.
Import Session.

(* ===================================================================== *)
(** ** Sample worlds and documents *)
(* ===================================================================== *)

Module Samples.

Definition form_page : str :=
  lit "Name: N/A" ++ nl ++ lit "Date: ---".

Definition connection_refused : exn :=
  Exn "ConnectionError" (lit "connection refused").

Definition not_a_pdf : exn :=
  Exn "PDFPageCountError" (lit "Unable to get page count.").

Definition server_error : response :=
  {| status_code := 500;
     text := lit "internal error";
     json_content := inl (Exn "JSONDecodeError" (lit "Expecting value")) |}.

(** The content of the single user message of a request. *)
Definition prompt_of (req : chat_request) : str :=
  match req_messages req with
  | m :: _ => content m
  | [] => []
  end.

(** Every document has one page, read as [form_page]; the service echoes
    the prompt back. *)
Definition stub_world : world :=
  {| GROQ_API_KEY := Some (lit "key");
     GROQ_MODEL := default_model;
     convert_from_bytes := fun pdf => inr [pdf];
     image_to_string := fun _ => inr form_page;
     requests_post := fun req =>
       inr {| status_code := 200;
              text := prompt_of req;
              json_content := inr (PStr (prompt_of req)) |} |}.

(** Every page is read as the bytes of the document themselves. *)
Definition reading_world : world :=
  {| GROQ_API_KEY := Some (lit "key");
     GROQ_MODEL := default_model;
     convert_from_bytes := fun pdf => inr [pdf];
     image_to_string := fun img => inr img;
     requests_post := fun _ => inr server_error |}.

(** No document can be converted, and the service answers 500. *)
Definition corrupt_world : world :=
  {| GROQ_API_KEY := None;
     GROQ_MODEL := default_model;
     convert_from_bytes := fun _ => inl not_a_pdf;
     image_to_string := fun _ => inr [];
     requests_post := fun _ => inr server_error |}.

(** The network is down. *)
Definition offline_world : world :=
  {| GROQ_API_KEY := Some (lit "key");
     GROQ_MODEL := default_model;
     convert_from_bytes := fun pdf => inr [pdf];
     image_to_string := fun _ => inr form_page;
     requests_post := fun _ => inl connection_refused |}.

Definition upload (pdf : bytes) : widgets :=
  {| uploaded := Some pdf; fill_button := false; question_input := [] |}.

Definition upload_and_fill (pdf : bytes) : widgets :=
  {| uploaded := Some pdf; fill_button := true; question_input := [] |}.

(** 56 one-letter lines, a blank line, and one more line. *)
Definition crowded_page : str :=
  concat (repeat (lit "x" ++ nl) 56) ++ nl ++ lit "y".

(** A line of 111 letters. *)
Definition long_sample : str := repeat 97%N 111.

End Samples.
Import Samples.

(* ===================================================================== *)
(** ** Observations on the output of the renderer and of a run *)
(* ===================================================================== *)

Module Observations.

(** A string drawn at the left margin, no wider than the wrap width, and
    on one line. *)
Definition well_placed (op : canvas_op) : Prop :=
  match op with
  | DrawString x _ s => x = 40%Z /\ length s <= 110 /\ ~ In NL s
  | _ => True
  end.

Definition is_draw (op : canvas_op) : bool :=
  match op with DrawString _ _ _ => true | _ => false end.

Definition is_page_break (op : canvas_op) : bool :=
  match op with ShowPage => true | _ => false end.

Definition page_breaks (ops : list canvas_op) : nat :=
  length (filter is_page_break ops).

(** Every [showPage] is directly followed by [setFont("Helvetica", 10)]. *)
Fixpoint font_follows_breaks (ops : list canvas_op) : Prop :=
  match ops with
  | [] => True
  | ShowPage :: rest =>
      (exists rest', rest = SetFont "Helvetica" 10 :: rest')
      /\ font_follows_breaks rest
  | _ :: rest => font_follows_breaks rest
  end.

Definition blank (line : str) : bool := negb (nonempty (strip line)).

(** The line does not start, and does not end, with white space. *)
Definition first_char_ok (s : str) : bool :=
  match s with
  | [] => true
  | c :: _ => negb (is_space c)
  end.

Definition no_space_at_ends (s : str) : bool :=
  first_char_ok s && first_char_ok (rev s).

(** The number of strings drawn for a line. *)
Definition drawn_for (line : str) : nat :=
  if blank line then 0 else ceil_div (length line) wrap_width.

(** What the clients return (they never raise, see
    [groq_fill_missing_returns] and [groq_answer_question_returns]). *)
Definition fill_output (w : world) (text : str) : pyval :=
  match fst (groq_fill_missing w text) with
  | inr v => v
  | inl _ => PStr []
  end.

Definition answer_output (w : world) (text : pyval) (question : str)
  : pyval :=
  match fst (groq_answer_question w text question) with
  | inr v => v
  | inl _ => PStr []
  end.

Definition is_post (ev : event) : bool :=
  match ev with Call_requests_post _ => true | _ => false end.

Definition is_download (ev : event) : bool :=
  match ev with St_download_button _ _ => true | _ => false end.

(** The third widget state used below: a question typed in. *)
Definition ask (pdf : bytes) (q : str) : widgets :=
  {| uploaded := Some pdf; fill_button := false; question_input := q |}.

(** Every document has one page, on which nothing is recognised. *)
Definition corrupt_world_readable : world :=
  {| GROQ_API_KEY := None;
     GROQ_MODEL := default_model;
     convert_from_bytes := fun pdf => inr [pdf];
     image_to_string := fun _ => inr [];
     requests_post := fun _ => inr server_error |}.

(** An "Ask" action as the user performs it: the user enters a question,
    that is, a run in which the question box holds a text that is not
    empty and is not the text it held in the run before. *)
Definition same_text (a b : str) : bool :=
  if list_eq_dec N.eq_dec a b then true else false.

Fixpoint ask_actions_from (previous : str) (runs : list interaction) : nat :=
  match runs with
  | [] => 0
  | i :: rest =>
      let q := question_input (snd i) in
      (if nonempty q && negb (same_text q previous) then 1 else 0)
      + ask_actions_from q rest
  end.

Definition ask_actions (runs : list interaction) : nat :=
  ask_actions_from [] runs.

(** The runs of a session in which the script reaches the call of the
    Question-Answering Client: Filled Text, as that run leaves it, is a
    non-empty string and the question box is not empty. *)
Fixpoint asking_runs (ses : session) (runs : list interaction) : nat :=
  match runs with
  | [] => 0
  | i :: rest =>
      let ses' := rerun ses i in
      (if truthy (filled_text (fst ses')) && is_str (filled_text (fst ses'))
          && nonempty (question_input (snd i))
       then 1 else 0)
      + asking_runs ses' rest
  end.

(** A file is uploaded; the fill button is clicked; the user types one
    question; the fill button is clicked again, the question still in its
    box. *)
Definition one_question_session : list interaction :=
  [(stub_world, upload [37%N]);
   (stub_world, upload_and_fill [37%N]);
   (stub_world, ask [37%N] (lit "Name?"));
   (stub_world, {| uploaded := Some [37%N]; fill_button := true;
                   question_input := lit "Name?" |})].

(** A refresh with nothing uploaded, clicked or typed. *)
Definition idle : widgets :=
  {| uploaded := None; fill_button := false; question_input := [] |}.

End Observations.
Import Observations.

(* ===================================================================== *)
(** * Properties *)
(* ===================================================================== *)

(** ** Strings *)

Lemma lstrip_length (s : str) : length (lstrip s) <= length s.
Proof.
  induction s as [|c s IH]; simpl; [lia|].
  destruct (is_space c); simpl; lia.
Qed.

Lemma strip_length (s : str) : length (strip s) <= length s.
Proof.
  unfold strip, rstrip. rewrite length_rev.
  etransitivity; [apply lstrip_length|].
  rewrite length_rev. apply lstrip_length.
Qed.

Lemma split_nl_not_nil (s : str) : split_nl s <> [].
Proof.
  induction s as [|c s IH]; simpl; [discriminate|].
  destruct (c =? NL)%N; [discriminate|].
  destruct (split_nl s); discriminate.
Qed.

(** ** The wrap loop *)

Lemma wrap_loop_short (line : str) (y : Z) :
  length line <= 110 -> wrap_loop line y = ([], line, y).
Proof.
  intros H. simp wrap_loop.
  destruct (lt_dec 110 (length line)); [lia | reflexivity].
Qed.

Lemma wrap_loop_long (line : str) (y : Z) :
  110 < length line ->
  wrap_loop line y =
  let '(ops, rest, y') := wrap_loop (skipn 110 line) (y - 12) in
  (DrawString 40 y (firstn 110 line) :: ops, rest, y').
Proof.
  intros H. rewrite wrap_loop_equation_1.
  destruct (lt_dec 110 (length line)); [reflexivity | lia].
Qed.

Lemma ceil_div_small (n : nat) :
  0 < n -> n <= 110 -> ceil_div n wrap_width = 1.
Proof.
  intros H0 H1. unfold ceil_div, wrap_width.
  symmetry. apply (Nat.div_unique _ _ _ (n - 1)); lia.
Qed.

Lemma ceil_div_step (n : nat) :
  110 < n -> ceil_div n wrap_width = S (ceil_div (n - 110) wrap_width).
Proof.
  intros H. unfold ceil_div, wrap_width.
  replace (n + 110 - 1) with ((n - 110 + 110 - 1) + 1 * 110) by lia.
  rewrite Nat.div_add by lia. lia.
Qed.

Lemma wrap_loop_wrapped (line : str) (y : Z) :
  let '(ops, rest, y') := wrap_loop line y in wrapped line y ops rest y'.
Proof.
  remember (length line) as n eqn:Hn.
  revert line y Hn.
  induction n as [n IH] using lt_wf_ind. intros line y Hn.
  destruct (le_lt_dec (length line) 110) as [Hle | Hlt].
  - rewrite wrap_loop_short by assumption.
    split; cbn [drawn concat length app]; try lia; auto.
    intros Hpos. rewrite ceil_div_small; lia.
  - rewrite wrap_loop_long by assumption.
    specialize (IH (length (skipn 110 line))).
    assert (Hskip : length (skipn 110 line) = length line - 110)
      by apply length_skipn.
    specialize (IH ltac:(lia) (skipn 110 line) (y - 12)%Z eq_refl).
    destruct (wrap_loop (skipn 110 line) (y - 12)) as [[ops rest] y'].
    destruct IH as [Hc Hk Hd Hr Hp Hn' Hy].
    split; cbn [drawn concat length app].
    + rewrite <- app_assoc, Hc. apply firstn_skipn.
    + constructor; [|assumption]. rewrite length_firstn. lia.
    + now rewrite Hd.
    + assumption.
    + intros _. apply Hp. lia.
    + intros _. rewrite ceil_div_step by assumption.
      rewrite <- Hskip, <- Hn' by lia. reflexivity.
    + lia.
Qed.

(** ** The renderer, line by line *)

Lemma drawn_app (a b : list canvas_op) : drawn (a ++ b) = drawn a ++ drawn b.
Proof.
  induction a as [|op a IH]; simpl; [reflexivity|].
  destruct op; simpl; now rewrite ?IH.
Qed.

Lemma render_lines_app (y : Z) (pre post : list str) (line : str) :
  render_lines y (pre ++ line :: post) =
  render_lines y pre
  ++ fst (render_line (cursor_after y pre) line)
  ++ render_lines (snd (render_line (cursor_after y pre) line)) post.
Proof.
  revert y. induction pre as [|l pre IH]; intros y; simpl.
  - now destruct (render_line y line).
  - destruct (render_line y l) as [ops y'] eqn:E. simpl.
    now rewrite IH, <- app_assoc.
Qed.

(** A line that is not blank is drawn as the chunks of the wrap loop
    followed by what is left of it, stripped. *)
Lemma render_line_nonblank (y : Z) (line : str) :
  nonempty (strip line) = true ->
  exists ops rest y1 tail,
    wrap_loop line y = (ops, rest, y1)
    /\ fst (render_line y line) = ops ++ DrawString 40 y1 (strip rest) :: tail
    /\ drawn tail = [].
Proof.
  intros Hnb. unfold render_line. rewrite Hnb. simpl.
  destruct (wrap_loop line y) as [[ops rest] y1].
  exists ops, rest, y1.
  destruct (y1 - 12 <? 40)%Z.
  - exists [ShowPage; SetFont "Helvetica" 10]. simpl.
    now rewrite <- app_assoc.
  - exists []. simpl. auto.
Qed.

Lemma Forall_length_weaken (l : list str) :
  Forall (fun s => length s = 110) l -> Forall (fun s => length s <= 110) l.
Proof.
  intros H. eapply Forall_impl; [|exact H]. simpl. intros s Hs. lia.
Qed.

(** C1 (amended): a non-blank line of more than 110 characters is drawn,
    at its place in the output of [generate_pdf], as exactly
    [ceil(len / 110)] segments of at most 110 characters each: the
    full-width chunks of the line, verbatim, and last the rest of the line
    with the white space at its ends stripped.  The segments concatenate
    to the line whenever stripping leaves that rest as it is. *)
Theorem long_line_segments
  (text : str) (pre post : list str) (line : str) :
  split_nl text = pre ++ line :: post ->
  110 < length line ->
  nonempty (strip line) = true ->
  let y := cursor_after y0 pre in
  let ops := fst (render_line y line) in
  generate_pdf text =
    header ++ render_lines y0 pre ++ ops
    ++ render_lines (snd (render_line y line)) post ++ [Save]
  /\ length (drawn ops) = ceil_div (length line) wrap_width
  /\ Forall (fun s => length s <= 110) (drawn ops)
  /\ exists chunks rest,
       drawn ops = chunks ++ [strip rest]
       /\ concat chunks ++ rest = line
       /\ Forall (fun s => length s = 110) chunks
       /\ (strip rest = rest -> concat (drawn ops) = line).
Proof.
  intros Hsplit Hlong Hnb y ops.
  split.
  { unfold generate_pdf. rewrite Hsplit, render_lines_app.
    now rewrite <- !app_assoc. }
  destruct (render_line_nonblank y line Hnb)
    as (wops & rest & y1 & tail & Hw & Hops & Htail).
  pose proof (wrap_loop_wrapped line y) as W. rewrite Hw in W.
  destruct W as [Hc Hk Hd Hr Hp Hn Hy].
  assert (Hdrawn : drawn ops = drawn wops ++ [strip rest]).
  { subst ops. rewrite Hops, drawn_app. simpl. now rewrite Htail. }
  repeat split.
  - rewrite Hdrawn, length_app, Hd. cbn [length].
    specialize (Hn ltac:(lia)). lia.
  - rewrite Hdrawn. apply Forall_app. split.
    + now apply Forall_length_weaken.
    + constructor; [|constructor].
      pose proof (strip_length rest). lia.
  - exists (drawn wops), rest. repeat split; auto.
    intros Hs. rewrite Hdrawn, concat_app. simpl.
    now rewrite Hs, app_nil_r.
Qed.

Lemma long_line_segments_witness :
  length (drawn (fst (render_line y0 long_sample))) = 2.
Proof.
  exact (proj1 (proj2
    (long_line_segments long_sample [] [] long_sample
       eq_refl ltac:(vm_compute; lia) eq_refl))).
Defined.

(** C1 as stated fails: the segments of a line of 110 letters followed by
    a space and a letter are the 110 letters and the single last letter;
    the space is lost, and no two consecutive drawn strings concatenate
    to the line. *)
Lemma long_line_concat_fails :
  ~ (forall text line : str,
       In line (split_nl text) ->
       110 < length line ->
       exists before segs after,
         drawn (generate_pdf text) = before ++ segs ++ after
         /\ length segs = ceil_div (length line) wrap_width
         /\ Forall (fun s => length s <= 110) segs
         /\ concat segs = line).
Proof.
  intros H.
  pose (line := repeat 97%N 110 ++ lit " b").
  destruct (H line line) as (before & segs & after & Hd & Hn & _ & Hc).
  - left. reflexivity.
  - vm_compute. lia.
  - assert (Hlen : length (concat segs) = 112) by (rewrite Hc; reflexivity).
    change (ceil_div (length line) wrap_width) with 2 in Hn.
    destruct segs as [|s1 [|s2 [|s3 segs]]]; try discriminate Hn.
    assert (E : drawn (generate_pdf line)
                = [title; repeat 97%N 110; lit "b"]) by reflexivity.
    rewrite E in Hd. clear E Hn Hc.
    destruct before as [|b1 [|b2 [|b3 before]]]; simpl in Hd.
    + injection Hd as <- <- _. vm_compute in Hlen. discriminate.
    + injection Hd as _ <- <- _. vm_compute in Hlen. discriminate.
    + injection Hd as _ _ _ Hd. discriminate.
    + injection Hd as _ _ _ Hd. destruct before; discriminate.
Qed.

(** A line of white space only is blank however long it is: nothing is
    drawn for it. *)
Example blank_long_line_not_drawn :
  drawn (generate_pdf (repeat 32%N 111)) = [title].
Proof. reflexivity. Qed.

(** ** White space at the ends of a line *)

Lemma lstrip_fixed (s : str) : lstrip s = s <-> first_char_ok s = true.
Proof.
  destruct s as [|c s]; simpl; [tauto|].
  destruct (is_space c); simpl; [|tauto].
  split; [|discriminate]. intros H.
  pose proof (lstrip_length s) as Hl. rewrite H in Hl. simpl in Hl. lia.
Qed.

Lemma rstrip_fixed (s : str) : rstrip s = s <-> first_char_ok (rev s) = true.
Proof.
  unfold rstrip. rewrite <- lstrip_fixed. split; intros H.
  - rewrite <- H at 2. now rewrite rev_involutive.
  - rewrite H. apply rev_involutive.
Qed.

Lemma rstrip_length (s : str) : length (rstrip s) <= length s.
Proof.
  unfold rstrip. rewrite length_rev.
  etransitivity; [apply lstrip_length|]. now rewrite length_rev.
Qed.

(** [line.strip()] is the line itself exactly when the line does not
    start and does not end with white space. *)
Lemma strip_fixed (s : str) : strip s = s <-> no_space_at_ends s = true.
Proof.
  unfold no_space_at_ends. rewrite andb_true_iff.
  rewrite <- lstrip_fixed, <- rstrip_fixed. unfold strip. split.
  - intros H.
    assert (Hl : lstrip s = s).
    { destruct s as [|c s]; [reflexivity|]. simpl in *.
      destruct (is_space c); [|reflexivity].
      pose proof (rstrip_length (lstrip s)) as H1.
      pose proof (lstrip_length s) as H2.
      rewrite H in H1. simpl in H1. lia. }
    split; [exact Hl|]. now rewrite Hl in H.
  - intros [Hl Hr]. now rewrite Hl.
Qed.

(** C7 (amended): for every non-blank line of at most 110 characters of
    the text, [generate_pdf] draws, at the place of the line in its
    output, exactly one string: the line with the white space at its two
    ends stripped.  The string drawn for the line is the line verbatim
    exactly when the line has no white space at its ends. *)
Theorem short_line_drawn_stripped
  (text : str) (pre post : list str) (line : str) :
  split_nl text = pre ++ line :: post ->
  nonempty (strip line) = true ->
  length line <= 110 ->
  let y := cursor_after y0 pre in
  let ops := fst (render_line y line) in
  generate_pdf text =
    header ++ render_lines y0 pre ++ ops
    ++ render_lines (snd (render_line y line)) post ++ [Save]
  /\ drawn ops = [strip line]
  /\ In (DrawString 40 y (strip line)) ops
  /\ (drawn ops = [line] <-> no_space_at_ends line = true)
  /\ In (DrawString 40 y (strip line)) (generate_pdf text)
  /\ In (strip line) (drawn (generate_pdf text))
  /\ (strip line = line -> In line (drawn (generate_pdf text))).
Proof.
  intros Hsplit Hnb Hshort y ops.
  assert (Hpdf : generate_pdf text =
                 header ++ render_lines y0 pre ++ ops
                 ++ render_lines (snd (render_line y line)) post ++ [Save]).
  { unfold generate_pdf. rewrite Hsplit, render_lines_app.
    now rewrite <- !app_assoc. }
  destruct (render_line_nonblank y line Hnb)
    as (wops & rest & y1 & tail & Hw & Hops & Htail).
  rewrite wrap_loop_short in Hw by assumption.
  injection Hw as <- <- <-. cbn [app] in Hops. fold ops in Hops.
  assert (Hdrawn : drawn ops = [strip line])
    by (rewrite Hops; cbn [drawn]; now rewrite Htail).
  assert (Hin : In (DrawString 40 y (strip line)) ops)
    by (rewrite Hops; now left).
  assert (Hop : In (DrawString 40 y (strip line)) (generate_pdf text)).
  { rewrite Hpdf. apply in_or_app. right. apply in_or_app. right.
    apply in_or_app. now left. }
  assert (Hdr : In (strip line) (drawn (generate_pdf text))).
  { clear - Hop. induction (generate_pdf text) as [|op l IH];
      [contradiction|].
    destruct Hop as [-> | Hop]; [now left|].
    destruct op; simpl; auto. }
  split; [exact Hpdf|]. split; [exact Hdrawn|]. split; [exact Hin|].
  split; [|split; [exact Hop | split; [exact Hdr|]]].
  - rewrite Hdrawn, <- strip_fixed. split.
    + now intros [= H].
    + now intros ->.
  - intros <-. exact Hdr.
Qed.

Lemma short_line_drawn_stripped_witness :
  drawn (fst (render_line y0 (lit "  Name: N/A"))) = [lit "Name: N/A"]
  /\ In (lit "Name: N/A") (drawn (generate_pdf (lit "  Name: N/A"))).
Proof.
  pose proof (short_line_drawn_stripped
                (lit "  Name: N/A") [] [] (lit "  Name: N/A")
                eq_refl eq_refl ltac:(vm_compute; lia)) as H.
  exact (conj (proj1 (proj2 H))
              (proj1 (proj2 (proj2 (proj2 (proj2 (proj2 H))))))).
Defined.

(** C7 as stated fails: an indented line is not drawn verbatim. *)
Lemma short_line_not_verbatim :
  ~ (forall text line : str,
       text <> [] ->
       In line (split_nl text) ->
       nonempty (strip line) = true ->
       length line <= 110 ->
       In line (drawn (generate_pdf text))).
Proof.
  intros H.
  specialize (H (lit " a") (lit " a")).
  assert (E : drawn (generate_pdf (lit " a")) = [title; lit "a"])
    by reflexivity.
  rewrite E in H.
  destruct H as [H | [H | []]]; try discriminate H.
  - discriminate.
  - left. reflexivity.
  - reflexivity.
  - vm_compute. lia.
Qed.

(** ** The page break *)

(** A line of at most 110 characters that is not blank is drawn where
    the cursor stands, and the page test follows it: from a cursor on
    the page, the draw is on the page and so is the cursor afterwards. *)
Lemma render_line_short_on_page (y : Z) (line : str) :
  nonempty (strip line) = true ->
  length line <= 110 ->
  (40 <= y)%Z ->
  Forall (fun y' => 40 <= y')%Z (drawn_at (fst (render_line y line)))
  /\ (40 <= snd (render_line y line))%Z.
Proof.
  intros Hnb Hshort Hy. unfold render_line. rewrite Hnb. simpl.
  rewrite wrap_loop_short by assumption. simpl.
  destruct (Z.ltb_spec (y - 12) 40); simpl.
  - split; [repeat constructor; assumption | vm_compute; discriminate].
  - split; [repeat constructor; assumption | assumption].
Qed.

(** C2 at the failing input: 56 one-letter lines are drawn from 722 down
    to 62 and leave the cursor at 50; the blank line after them moves it
    to 38 and takes the [continue], so no page test is made; and the last
    line is drawn at 38, below the bottom margin of 40, before the page
    is turned. *)
Theorem draw_below_bottom_margin :
  generate_pdf crowded_page =
    header
    ++ map (fun k => DrawString 40 (722 - 12 * Z.of_nat k) (lit "x"))
         (seq 0 56)
    ++ [DrawString 40 38 (lit "y"); ShowPage; SetFont "Helvetica" 10; Save]
  /\ Exists (fun y => y < 40)%Z (drawn_at (generate_pdf crowded_page)).
Proof.
  assert (E : generate_pdf crowded_page =
    header
    ++ map (fun k => DrawString 40 (722 - 12 * Z.of_nat k) (lit "x"))
         (seq 0 56)
    ++ [DrawString 40 38 (lit "y"); ShowPage; SetFont "Helvetica" 10; Save])
    by (vm_compute; reflexivity).
  split; [exact E|].
  rewrite E. apply Exists_exists. exists 38%Z. split; [|lia].
  unfold header. cbn [app drawn_at].
  right. clear E.
  induction (seq 0 56) as [|k ks IH]; cbn [map app drawn_at].
  - left. reflexivity.
  - right. exact IH.
Qed.

(** ** The Text Extractor *)

Lemma ocr_pages_all_read (w : world) (images : list image)
  (texts : list str) (text : str) :
  Forall2 (reads w) images texts ->
  ocr_pages w images text =
  (inr (text ++ concat (map (fun t => t ++ nl) texts)),
   map Call_image_to_string images).
Proof.
  intros H. revert text.
  induction H as [|img t images texts Hr _ IH]; intros text; simpl.
  - now rewrite app_nil_r.
  - rewrite Hr. simpl. rewrite IH. simpl. now rewrite <- !app_assoc.
Qed.

Lemma ocr_pages_first_failure (w : world) (done rest : list image)
  (bad : image) (texts : list str) (e : exn) (text : str) :
  Forall2 (reads w) done texts ->
  image_to_string w bad = inl e ->
  ocr_pages w (done ++ bad :: rest) text =
  (inl e, map Call_image_to_string (done ++ [bad])).
Proof.
  intros H Hbad. revert text.
  induction H as [|img t done texts Hr _ IH]; intros text; simpl.
  - now rewrite Hbad.
  - rewrite Hr. simpl. now rewrite IH.
Qed.

(** The pages are read in order until one fails. *)
Lemma ocr_pages_cases (w : world) (images : list image) :
  (exists texts, Forall2 (reads w) images texts)
  \/ (exists done bad rest texts e,
        images = done ++ bad :: rest
        /\ Forall2 (reads w) done texts
        /\ image_to_string w bad = inl e).
Proof.
  induction images as [|img images IH].
  - left. exists []. constructor.
  - destruct (image_to_string w img) as [e | t] eqn:E.
    + right. exists [], img, images, [], e. repeat split; auto.
    + destruct IH as [(texts & H) | (done & bad & rest & texts & e & -> & H & Hb)].
      * left. exists (t :: texts). constructor; assumption.
      * right. exists (img :: done), bad, rest, (t :: texts), e.
        repeat split; auto; constructor; assumption.
Qed.

Lemma pdf_to_text_all_read (w : world) (pdf : bytes)
  (images : list image) (texts : list str) :
  convert_from_bytes w pdf = inr images ->
  Forall2 (reads w) images texts ->
  pdf_to_text w pdf =
  (inr (concat (map (fun t => t ++ nl) texts)),
   Enter_pdf_to_text pdf :: Call_convert_from_bytes pdf
   :: map Call_image_to_string images).
Proof.
  intros Hc Hr. unfold pdf_to_text. simpl. rewrite Hc. simpl.
  erewrite ocr_pages_all_read by eassumption. simpl. reflexivity.
Qed.

Lemma pdf_to_text_unconvertible (w : world) (pdf : bytes) (e : exn) :
  convert_from_bytes w pdf = inl e ->
  pdf_to_text w pdf =
  (inr [],
   [Enter_pdf_to_text pdf; Call_convert_from_bytes pdf;
    St_error (pdf_error e)]).
Proof.
  intros Hc. unfold pdf_to_text. simpl. rewrite Hc. reflexivity.
Qed.

Lemma pdf_to_text_page_fails (w : world) (pdf : bytes)
  (done rest : list image) (bad : image) (texts : list str) (e : exn) :
  convert_from_bytes w pdf = inr (done ++ bad :: rest) ->
  Forall2 (reads w) done texts ->
  image_to_string w bad = inl e ->
  pdf_to_text w pdf =
  (inr [],
   Enter_pdf_to_text pdf :: Call_convert_from_bytes pdf
   :: map Call_image_to_string (done ++ [bad])
   ++ [St_error (pdf_error e)]).
Proof.
  intros Hc Hr Hb. unfold pdf_to_text. simpl. rewrite Hc. simpl.
  erewrite ocr_pages_first_failure by eassumption. simpl.
  reflexivity.
Qed.

(** C8: [pdf_to_text] reads the pages in page order and returns their
    texts, each followed by a newline, concatenated.  When the conversion
    raises, or the recognition of a page does, the exception is caught,
    one error is reported with [st.error], and the empty string is
    returned. *)
Theorem pdf_to_text_contract (w : world) (pdf : bytes) :
  (forall images texts,
     convert_from_bytes w pdf = inr images ->
     Forall2 (reads w) images texts ->
     pdf_to_text w pdf =
     (inr (concat (map (fun t => t ++ nl) texts)),
      Enter_pdf_to_text pdf :: Call_convert_from_bytes pdf
      :: map Call_image_to_string images))
  /\ (forall e,
        convert_from_bytes w pdf = inl e ->
        pdf_to_text w pdf =
        (inr [],
         [Enter_pdf_to_text pdf; Call_convert_from_bytes pdf;
          St_error (pdf_error e)]))
  /\ (forall done bad rest texts e,
        convert_from_bytes w pdf = inr (done ++ bad :: rest) ->
        Forall2 (reads w) done texts ->
        image_to_string w bad = inl e ->
        pdf_to_text w pdf =
        (inr [],
         Enter_pdf_to_text pdf :: Call_convert_from_bytes pdf
         :: map Call_image_to_string (done ++ [bad])
         ++ [St_error (pdf_error e)])).
Proof.
  split; [|split].
  - intros images texts. apply pdf_to_text_all_read.
  - intros e. apply pdf_to_text_unconvertible.
  - intros done bad rest texts e. apply pdf_to_text_page_fails.
Qed.

Lemma pdf_to_text_contract_witness :
  pdf_to_text stub_world [37%N] =
  (inr (lit "Name: N/A" ++ nl ++ lit "Date: ---" ++ nl),
   [Enter_pdf_to_text [37%N]; Call_convert_from_bytes [37%N];
    Call_image_to_string [37%N]])
  /\ pdf_to_text corrupt_world [37%N] =
     (inr [],
      [Enter_pdf_to_text [37%N]; Call_convert_from_bytes [37%N];
       St_error (pdf_error not_a_pdf)]).
Proof.
  split.
  - exact (proj1 (pdf_to_text_contract stub_world [37%N])
             [[37%N]] [form_page] eq_refl
             (Forall2_cons _ _ eq_refl (Forall2_nil _))).
  - exact (proj1 (proj2 (pdf_to_text_contract corrupt_world [37%N]))
             not_a_pdf eq_refl).
Defined.

(** The extractor never raises, and what it emits is one entry, calls to
    the two services, and at most one error report, which comes last. *)
Lemma pdf_to_text_cases (w : world) (pdf : bytes) :
  exists calls,
    Forall (fun ev => is_call ev = true) calls
    /\ ((exists texts,
           pdf_to_text w pdf =
           (inr (concat (map (fun t => t ++ nl) texts)),
            Enter_pdf_to_text pdf :: calls))
        \/ (exists e,
              pdf_to_text w pdf =
              (inr [],
               Enter_pdf_to_text pdf :: calls ++ [St_error (pdf_error e)]))).
Proof.
  assert (Hcalls : forall images : list image,
             Forall (fun ev => is_call ev = true)
               (Call_convert_from_bytes pdf
                :: map Call_image_to_string images)).
  { intros images. constructor; [reflexivity|].
    apply Forall_forall. intros ev Hin.
    apply in_map_iff in Hin. now destruct Hin as (img & <- & _). }
  destruct (convert_from_bytes w pdf) as [e | images] eqn:Hc.
  - exists [Call_convert_from_bytes pdf]. split; [apply (Hcalls [])|].
    right. exists e. now apply pdf_to_text_unconvertible.
  - destruct (ocr_pages_cases w images)
      as [(texts & Hr) | (done & bad & rest & texts & e & -> & Hr & Hb)].
    + exists (Call_convert_from_bytes pdf :: map Call_image_to_string images).
      split; [apply Hcalls|]. left. exists texts.
      now apply pdf_to_text_all_read.
    + exists (Call_convert_from_bytes pdf
              :: map Call_image_to_string (done ++ [bad])).
      split; [apply Hcalls|]. right. exists e.
      eapply pdf_to_text_page_fails; eassumption.
Qed.

Lemma pdf_to_text_returns (w : world) (pdf : bytes) :
  fst (pdf_to_text w pdf) = inr (ocr_output w pdf).
Proof.
  unfold ocr_output.
  destruct (pdf_to_text_cases w pdf)
    as (calls & _ & [(texts & ->) | (e & ->)]); reflexivity.
Qed.

Lemma concat_lines_end (texts : list str) :
  texts <> [] ->
  exists t', concat (map (fun t => t ++ nl) texts) = t' ++ nl.
Proof.
  intros Hne.
  destruct (exists_last Hne) as (init & last & ->).
  exists (concat (map (fun t => t ++ nl) init) ++ last).
  rewrite map_app, concat_app. simpl.
  now rewrite app_nil_r, app_assoc.
Qed.

(** C10: a non-empty string returned by [pdf_to_text] ends with a
    newline. *)
Theorem extracted_text_ends_with_newline (w : world) (pdf : bytes) (t : str) :
  fst (pdf_to_text w pdf) = inr t ->
  t <> [] ->
  exists t', t = t' ++ nl.
Proof.
  intros Hret Hne.
  destruct (pdf_to_text_cases w pdf)
    as (calls & _ & [(texts & E) | (e & E)]);
    rewrite E in Hret; simpl in Hret; injection Hret as <-.
  - apply concat_lines_end. intros ->. now apply Hne.
  - now contradiction Hne.
Qed.

Lemma extracted_text_ends_with_newline_witness :
  exists t', form_page ++ nl = t' ++ nl.
Proof.
  apply (extracted_text_ends_with_newline stub_world [37%N]).
  - reflexivity.
  - discriminate.
Defined.

(** ** The two clients *)

Lemma groq_fill_missing_returns (w : world) (text : str) :
  exists v,
    groq_fill_missing w text =
    (inr v, [Enter_groq_fill_missing text;
             Call_requests_post (fill_request w text)]).
Proof.
  unfold groq_fill_missing. simpl.
  destruct (requests_post w (fill_request w text)) as [e | resp]; simpl.
  - eexists. reflexivity.
  - destruct (status_code resp =? 200)%Z; simpl.
    + destruct (json_content resp); simpl; eexists; reflexivity.
    + eexists. reflexivity.
Qed.

Lemma groq_answer_question_returns (w : world) (text : pyval) (q : str) :
  exists v,
    groq_answer_question w text q =
    (inr v, [Enter_groq_answer_question text q;
             Call_requests_post (answer_request w text q)]).
Proof.
  unfold groq_answer_question. simpl.
  destruct (requests_post w (answer_request w text q)) as [e | resp]; simpl.
  - eexists. reflexivity.
  - destruct (status_code resp =? 200)%Z; simpl.
    + destruct (json_content resp); simpl; eexists; reflexivity.
    + eexists. reflexivity.
Qed.

(** C3: neither client raises, whatever the text, the question and the
    behaviour of the service.  When the POST raises, the client returns
    the formatted string [Request failed: e]; when the service answers
    with a status other than 200, it returns the error marker followed by
    the body of the response. *)
Theorem clients_return_errors_as_text
  (w : world) (text : str) (filled : pyval) (question : str) :
  (exists v,
     fst (groq_fill_missing w text) = inr v
     /\ (forall e,
           requests_post w (fill_request w text) = inl e ->
           v = PStr (cross_mark :: lit " Request failed: " ++ exn_str e))
     /\ (forall resp,
           requests_post w (fill_request w text) = inr resp ->
           status_code resp <> 200%Z ->
           v = PStr (cross_mark :: lit " Groq API error: " ++ Py.text resp)))
  /\ (exists v,
        fst (groq_answer_question w filled question) = inr v
        /\ (forall e,
              requests_post w (answer_request w filled question) = inl e ->
              v = PStr (cross_mark :: lit " Request failed: " ++ exn_str e))
        /\ (forall resp,
              requests_post w (answer_request w filled question) = inr resp ->
              status_code resp <> 200%Z ->
              v = PStr (cross_mark :: lit " Groq API error: "
                        ++ Py.text resp))).
Proof.
  split.
  - unfold groq_fill_missing. simpl.
    destruct (requests_post w (fill_request w text)) as [e | resp]; simpl.
    + eexists. split; [reflexivity|]. split.
      * intros e' [= <-]. reflexivity.
      * intros resp [=].
    + destruct (Z.eqb_spec (status_code resp) 200) as [E | E]; simpl.
      * destruct (json_content resp) as [e | v]; simpl;
          (eexists; split; [reflexivity|]; split;
           [intros e' [=] | intros resp' [= <-] Hs; now contradiction Hs]).
      * eexists. split; [reflexivity|]. split.
        -- intros e' [=].
        -- intros resp' [= <-] _. reflexivity.
  - unfold groq_answer_question. simpl.
    destruct (requests_post w (answer_request w filled question))
      as [e | resp]; simpl.
    + eexists. split; [reflexivity|]. split.
      * intros e' [= <-]. reflexivity.
      * intros resp [=].
    + destruct (Z.eqb_spec (status_code resp) 200) as [E | E]; simpl.
      * destruct (json_content resp) as [e | v]; simpl;
          (eexists; split; [reflexivity|]; split;
           [intros e' [=] | intros resp' [= <-] Hs; now contradiction Hs]).
      * eexists. split; [reflexivity|]. split.
        -- intros e' [=].
        -- intros resp' [= <-] _. reflexivity.
Qed.

(** The service answers 500, or the connection is refused. *)
Lemma clients_return_errors_as_text_witness :
  fst (groq_fill_missing corrupt_world form_page)
  = inr (PStr (cross_mark :: lit " Groq API error: internal error"))
  /\ fst (groq_answer_question offline_world (PStr form_page) (lit "Name?"))
     = inr (PStr (cross_mark :: lit " Request failed: connection refused")).
Proof.
  split.
  - destruct (clients_return_errors_as_text
                corrupt_world form_page (PStr form_page) (lit "Name?"))
      as [(v & Hret & _ & Hstatus) _].
    rewrite Hret. f_equal.
    apply (Hstatus server_error eq_refl). discriminate.
  - destruct (clients_return_errors_as_text
                offline_world form_page (PStr form_page) (lit "Name?"))
      as [_ (v & Hret & Hexn & _)].
    rewrite Hret. f_equal.
    apply (Hexn connection_refused eq_refl).
Defined.

(** ** The phases of a run *)

Lemma count_app (p : event -> bool) (a b : list event) :
  count p (a ++ b) = count p a + count p b.
Proof. unfold count. now rewrite filter_app, length_app. Qed.

Lemma filter_calls (p : event -> bool) (calls : list event) :
  (forall ev, is_call ev = true -> p ev = false) ->
  Forall (fun ev => is_call ev = true) calls ->
  filter p calls = [].
Proof.
  intros Hp H. induction H as [|ev calls Hev _ IH]; simpl; [reflexivity|].
  now rewrite (Hp ev Hev).
Qed.

Lemma filter_history_lines (p : event -> bool) (h : list qa_entry) :
  (forall ev, is_history_line ev = true -> p ev = false) ->
  filter p (history_lines h) = [].
Proof.
  intros Hp. induction h as [|item h IH]; simpl; [reflexivity|].
  rewrite !Hp by reflexivity. exact IH.
Qed.

Lemma filter_history_lines_all (h : list qa_entry) :
  filter is_history_line (history_lines h) = history_lines h.
Proof.
  induction h as [|item h IH]; simpl; [reflexivity|]. now rewrite IH.
Qed.

Lemma not_in_filtered (p : event -> bool) (ev : event) (t : list event) :
  p ev = true -> filter p t = [] -> ~ In ev t.
Proof.
  intros Hp Hf Hin.
  assert (H : In ev (filter p t)) by (apply filter_In; auto).
  now rewrite Hf in H.
Qed.

(** The kinds of events exclude each other. *)
Ltac kinds := intros [] ; simpl; congruence.

Lemma upload_and_ocr_run (w : world) (ui : widgets) (s : session_state) :
  upload_and_ocr w ui s =
  match uploaded ui with
  | Some pdf =>
      if nonempty (ocr_text s) then (inr tt, s, [])
      else (inr tt, with_ocr_text s (ocr_output w pdf),
            snd (pdf_to_text w pdf))
  | None => (inr tt, s, [])
  end.
Proof.
  unfold upload_and_ocr. destruct (uploaded ui) as [pdf|]; [|reflexivity].
  simpl. destruct (nonempty (ocr_text s)); simpl; [reflexivity|].
  unfold call. rewrite pdf_to_text_returns. simpl.
  now rewrite app_nil_r.
Qed.

Lemma show_extracted_text_run (w : world) (ui : widgets) (s : session_state) :
  exists v,
    show_extracted_text w ui s =
    if nonempty (ocr_text s) then
      if fill_button ui then
        (inr tt, with_filled_text s v,
         [St_text_area (lit "Scanned Text") (PStr (ocr_text s));
          Enter_groq_fill_missing (ocr_text s);
          Call_requests_post (fill_request w (ocr_text s))])
      else (inr tt, s, [St_text_area (lit "Scanned Text") (PStr (ocr_text s))])
    else (inr tt, s, []).
Proof.
  destruct (groq_fill_missing_returns w (ocr_text s)) as (v & Hv).
  exists v. unfold show_extracted_text. simpl.
  destruct (nonempty (ocr_text s)); simpl; [|reflexivity].
  destruct (fill_button ui); simpl; [|reflexivity].
  unfold call. rewrite Hv. simpl. reflexivity.
Qed.

Lemma show_filled_output_run (w : world) (ui : widgets) (s : session_state) :
  exists v,
    show_filled_output w ui s =
    if truthy (filled_text s) then
      match filled_text s with
      | PStr t =>
          if nonempty (question_input ui) then
            (inr tt, with_appended s (QA (question_input ui) v),
             [St_text_area (lit "AI-Filled Text") (filled_text s);
              St_download_button (lit "AI_Filled_Form.pdf") (generate_pdf t);
              Enter_groq_answer_question (filled_text s) (question_input ui);
              Call_requests_post
                (answer_request w (filled_text s) (question_input ui))])
          else
            (inr tt, s,
             [St_text_area (lit "AI-Filled Text") (filled_text s);
              St_download_button (lit "AI_Filled_Form.pdf") (generate_pdf t)])
      | PObj _ _ =>
          (inl (Exn "AttributeError" (lit "split")), s,
           [St_text_area (lit "AI-Filled Text") (filled_text s)])
      end
    else (inr tt, s, []).
Proof.
  destruct (groq_answer_question_returns w (filled_text s) (question_input ui))
    as (v & Hv).
  exists v. unfold show_filled_output. simpl.
  destruct (truthy (filled_text s)); simpl; [|reflexivity].
  destruct (filled_text s) as [t | b r] eqn:E; simpl; [|reflexivity].
  destruct (nonempty (question_input ui)); simpl; [|reflexivity].
  unfold call. rewrite E, Hv. simpl. reflexivity.
Qed.

Lemma for_each_history (h : list qa_entry) (s : session_state) :
  for_each h
    (fun item =>
       emit (St_markdown (show_question item)) ;;
       emit (St_success (show_answer item))) s
  = (inr tt, s, history_lines h).
Proof.
  induction h as [|item h IH]; simpl; [reflexivity|].
  simpl in IH. rewrite IH. reflexivity.
Qed.

Lemma show_qa_history_run (s : session_state) :
  show_qa_history s = (inr tt, s, history_lines (rev (qa_history s))).
Proof.
  unfold show_qa_history. simpl.
  destruct (qa_history s) as [|item h] eqn:E; simpl; [reflexivity|].
  pose proof (for_each_history (rev h ++ [item]) s) as H. simpl in H.
  rewrite H. reflexivity.
Qed.

Lemma nonempty_false (t : str) : nonempty t = false -> t = [].
Proof. destruct t; [reflexivity | discriminate]. Qed.

Lemma pdf_to_text_events (w : world) (pdf : bytes) :
  count is_extraction (snd (pdf_to_text w pdf)) = 1
  /\ count is_error_report (snd (pdf_to_text w pdf)) <= 1
  /\ (forall e, convert_from_bytes w pdf = inl e ->
                count is_error_report (snd (pdf_to_text w pdf)) = 1)
  /\ filter is_fill (snd (pdf_to_text w pdf)) = []
  /\ filter is_ask (snd (pdf_to_text w pdf)) = []
  /\ filter is_history_line (snd (pdf_to_text w pdf)) = [].
Proof.
  split; [|split; [|split]].
  4: { destruct (pdf_to_text_cases w pdf)
         as (calls & Hcalls & [(texts & ->) | (e & ->)]); simpl;
         rewrite ?filter_app, !(filter_calls _ calls) by (kinds || assumption);
         auto. }
  - destruct (pdf_to_text_cases w pdf)
      as (calls & Hcalls & [(texts & ->) | (e & ->)]); unfold count; simpl;
      rewrite ?filter_app, !(filter_calls _ calls) by (kinds || assumption);
      reflexivity.
  - destruct (pdf_to_text_cases w pdf)
      as (calls & Hcalls & [(texts & ->) | (e & ->)]); unfold count; simpl;
      rewrite ?filter_app, !(filter_calls _ calls) by (kinds || assumption);
      simpl; lia.
  - intros e Hc. rewrite (pdf_to_text_unconvertible w pdf e Hc).
    reflexivity.
Qed.

Lemma upload_and_ocr_facts (w : world) (ui : widgets) (s : session_state) :
  exists s1 e1,
    upload_and_ocr w ui s = (inr tt, s1, e1)
    /\ ocr_text s1 =
       (if nonempty (ocr_text s) then ocr_text s
        else match uploaded ui with
             | Some pdf => ocr_output w pdf
             | None => []
             end)
    /\ filled_text s1 = filled_text s
    /\ qa_history s1 = qa_history s
    /\ count is_extraction e1 =
       match uploaded ui with
       | Some _ => if nonempty (ocr_text s) then 0 else 1
       | None => 0
       end
    /\ count is_error_report e1 <= count is_extraction e1
    /\ (forall pdf e,
          uploaded ui = Some pdf ->
          nonempty (ocr_text s) = false ->
          convert_from_bytes w pdf = inl e ->
          count is_error_report e1 = 1)
    /\ filter is_fill e1 = []
    /\ filter is_ask e1 = []
    /\ filter is_history_line e1 = [].
Proof.
  rewrite upload_and_ocr_run.
  destruct (uploaded ui) as [pdf|];
    [destruct (nonempty (ocr_text s)) eqn:Hne|].
  - exists s, []. repeat split; auto. intros ? ? _ [=].
  - destruct (pdf_to_text_events w pdf) as (Hx & Hle & Hone & Hf & Ha & Hh).
    exists (with_ocr_text s (ocr_output w pdf)), (snd (pdf_to_text w pdf)).
    repeat split; auto; try lia.
    intros pdf' e [= <-] _. apply Hone.
  - exists s, []. repeat split; auto; try discriminate.
    destruct (nonempty (ocr_text s)) eqn:Hne; [reflexivity|].
    now apply nonempty_false.
Qed.

Lemma show_extracted_text_facts (w : world) (ui : widgets)
  (s1 : session_state) :
  exists s2 e2,
    show_extracted_text w ui s1 = (inr tt, s2, e2)
    /\ ocr_text s2 = ocr_text s1
    /\ qa_history s2 = qa_history s1
    /\ (filled_text s2 = filled_text s1 \/ nonempty (ocr_text s1) = true)
    /\ (forall t, In (Enter_groq_fill_missing t) e2 ->
                  t = ocr_text s1 /\ nonempty t = true)
    /\ filter is_extraction e2 = []
    /\ filter is_error_report e2 = []
    /\ filter is_ask e2 = []
    /\ filter is_history_line e2 = [].
Proof.
  destruct (show_extracted_text_run w ui s1) as (v & ->).
  destruct (nonempty (ocr_text s1)) eqn:Hne; [destruct (fill_button ui)|];
    eexists _, _; (split; [reflexivity|]);
    (split; [reflexivity|]); (split; [reflexivity|]);
    (split; [auto|]); (split; [|auto]).
  - intros t [[=] | [[= <-] | [[=] | []]]]. auto.
  - intros t [[=] | []].
  - intros t [].
Qed.

Lemma show_filled_output_facts (w : world) (ui : widgets)
  (s2 : session_state) :
  exists r3 s3 e3,
    show_filled_output w ui s2 = (r3, s3, e3)
    /\ ocr_text s3 = ocr_text s2
    /\ filled_text s3 = filled_text s2
    /\ (exists new, qa_history s3 = qa_history s2 ++ new
                    /\ length new = count is_ask e3)
    /\ count is_ask e3 =
       (if truthy (filled_text s2) && is_str (filled_text s2)
           && nonempty (question_input ui)
        then 1 else 0)
    /\ filter is_extraction e3 = []
    /\ filter is_error_report e3 = []
    /\ filter is_fill e3 = []
    /\ filter is_history_line e3 = [].
Proof.
  destruct (show_filled_output_run w ui s2) as (v & ->).
  destruct (truthy (filled_text s2)) eqn:Ht;
    [destruct (filled_text s2) as [t | b r] eqn:Ef;
       [destruct (nonempty (question_input ui)) eqn:Hq|]|].
  - eexists _, _, _. split; [reflexivity|]. repeat split; auto.
    eexists. split; reflexivity.
  - eexists _, _, _. split; [reflexivity|]. repeat split; auto.
    exists []. now rewrite app_nil_r.
  - eexists _, _, _. split; [reflexivity|]. repeat split; auto.
    exists []. now rewrite app_nil_r.
  - eexists _, _, _. split; [reflexivity|]. repeat split; auto.
    exists []. now rewrite app_nil_r.
Qed.

(** ** One run of the script *)

Lemma script_facts (w : world) (ui : widgets) (s : session_state) :
  exists r s' evs,
    script w ui s = (r, s', evs) /\ run_facts w ui s r s' evs.
Proof.
  destruct (upload_and_ocr_facts w ui s)
    as (s1 & e1 & E1 & Ho1 & Hf1 & Hh1 & Hx1 & Hle1 & Hone1
        & Hfill1 & Hask1 & Hline1).
  destruct (show_extracted_text_facts w ui s1)
    as (s2 & e2 & E2 & Ho2 & Hh2 & Hf2 & Harg2 & Hx2 & Herr2
        & Hask2 & Hline2).
  destruct (show_filled_output_facts w ui s2)
    as (r3 & s3 & e3 & E3 & Ho3 & Hf3 & (new & Hh3 & Hnew) & Hask3 & Hx3
        & Herr3 & Hfill3 & Hline3).
  pose proof (show_qa_history_run s3) as E4.
  set (e4 := match r3 with
             | inr _ => history_lines (rev (qa_history s3))
             | inl _ => []
             end).
  assert (Hx4 : filter is_extraction e4 = [])
    by (subst e4; destruct r3; [reflexivity|];
        apply filter_history_lines; kinds).
  assert (Herr4 : filter is_error_report e4 = [])
    by (subst e4; destruct r3; [reflexivity|];
        apply filter_history_lines; kinds).
  assert (Hfill4 : filter is_fill e4 = [])
    by (subst e4; destruct r3; [reflexivity|];
        apply filter_history_lines; kinds).
  assert (Hask4 : filter is_ask e4 = [])
    by (subst e4; destruct r3; [reflexivity|];
        apply filter_history_lines; kinds).
  assert (Hline4 : filter is_history_line e4 = e4)
    by (subst e4; destruct r3; [reflexivity|];
        apply filter_history_lines_all).
  exists r3, s3, (e1 ++ e2 ++ e3 ++ e4). split.
  { unfold script. simpl. rewrite E1, E2, E3.
    destruct r3 as [e | []]; simpl.
    - subst e4. now rewrite app_nil_r.
    - rewrite E4. subst e4. reflexivity. }
  assert (Hcount : forall p, count p (e1 ++ e2 ++ e3 ++ e4)
                    = count p e1 + count p e2 + count p e3 + count p e4)
    by (intros p; rewrite !count_app; lia).
  split.
  - now rewrite Ho3, Ho2.
  - rewrite Hcount. unfold count at 2 3 4. rewrite Hx2, Hx3, Hx4.
    simpl. lia.
  - rewrite !Hcount. unfold count at 2 3 4 6 7 8.
    rewrite Hx2, Hx3, Hx4, Herr2, Herr3, Herr4. simpl. lia.
  - intros pdf e Hu Hne Hc. rewrite Hcount. unfold count at 2 3 4.
    rewrite Herr2, Herr3, Herr4. simpl.
    rewrite (Hone1 pdf e Hu Hne Hc). reflexivity.
  - intros t Hin. rewrite Ho3, Ho2.
    apply in_app_or in Hin. destruct Hin as [Hin | Hin].
    { now apply (not_in_filtered is_fill) in Hin. }
    apply in_app_or in Hin. destruct Hin as [Hin | Hin].
    { now apply Harg2. }
    apply in_app_or in Hin. destruct Hin as [Hin | Hin].
    { now apply (not_in_filtered is_fill) in Hin. }
    now apply (not_in_filtered is_fill) in Hin.
  - rewrite Hf3, Ho3, Ho2, <- Hf1. exact Hf2.
  - exists new. split.
    + now rewrite Hh3, Hh2, Hh1.
    + rewrite Hcount. unfold count at 1 2 4.
      rewrite Hask1, Hask2, Hask4. simpl. lia.
  - rewrite Hcount. unfold count at 1 2 4.
    rewrite Hask1, Hask2, Hask4, Hf3. simpl. lia.
  - rewrite !filter_app, Hline1, Hline2, Hline3, Hline4. reflexivity.
Qed.

(** ** Sessions *)

Lemma rerun_facts (ses : session) (w : world) (ui : widgets) :
  exists r evs,
    script w ui (fst ses) = (r, fst (rerun ses (w, ui)), evs)
    /\ snd (rerun ses (w, ui)) = snd ses ++ evs
    /\ run_facts w ui (fst ses) r (fst (rerun ses (w, ui))) evs.
Proof.
  destruct (script_facts w ui (fst ses)) as (r & s' & evs & E & F).
  exists r, evs. unfold rerun. simpl. rewrite E. simpl. auto.
Qed.

Lemma session_from_app (ses : session) (runs later : list interaction) :
  session_from ses (runs ++ later)
  = session_from (session_from ses runs) later.
Proof. apply fold_left_app. Qed.

(** What holds of a session and is kept by every run holds ever after. *)
Lemma session_from_ind (P : session -> Prop) :
  (forall ses i, P ses -> P (rerun ses i)) ->
  forall runs ses, P ses -> P (session_from ses runs).
Proof.
  intros Hstep runs.
  induction runs as [|i runs IH]; intros ses H; simpl; auto.
Qed.

(** Once Document Text is non-empty it stays as it is, and the extractor
    is not entered and reports nothing any more. *)
Lemma settled_session (runs : list interaction) (ses : session) :
  nonempty (ocr_text (fst ses)) = true ->
  ocr_text (fst (session_from ses runs)) = ocr_text (fst ses)
  /\ count is_extraction (snd (session_from ses runs))
     = count is_extraction (snd ses)
  /\ count is_error_report (snd (session_from ses runs))
     = count is_error_report (snd ses).
Proof.
  intros Hne.
  apply (session_from_ind
           (fun ses' =>
              ocr_text (fst ses') = ocr_text (fst ses)
              /\ count is_extraction (snd ses')
                 = count is_extraction (snd ses)
              /\ count is_error_report (snd ses')
                 = count is_error_report (snd ses))); [|auto].
  intros ses' [w ui] (Ho & Hx & He).
  destruct (rerun_facts ses' w ui) as (r & evs & _ & Htr & F).
  destruct F as [Hocr Hext Herr _ _ _ _ _ _].
  rewrite Ho, Hne in Hocr, Hext.
  assert (Hext0 : count is_extraction evs = 0)
    by (rewrite Hext; now destruct (uploaded ui)).
  rewrite Htr, !count_app. repeat split; [assumption | lia | lia].
Qed.

Lemma history_grows (runs : list interaction) (ses : session) :
  exists more,
    qa_history (fst (session_from ses runs))
    = qa_history (fst ses) ++ more.
Proof.
  apply (session_from_ind
           (fun ses' => exists more,
                qa_history (fst ses') = qa_history (fst ses) ++ more)).
  - intros ses' [w ui] (more & Hm).
    destruct (rerun_facts ses' w ui) as (r & evs & _ & _ & F).
    destruct (run_history _ _ _ _ _ _ F) as (new & Hn & _).
    exists (more ++ new). now rewrite Hn, Hm, app_assoc.
  - exists []. now rewrite app_nil_r.
Qed.

(** C4: in a session, the Form Completion Client is only ever entered
    with a non-empty text, which is the Document Text of that moment, and
    Filled Text differs from its initial value only when Document Text is
    non-empty. *)
Theorem fill_only_with_document_text (runs : list interaction) :
  let ses := session_after runs in
  (forall t, In (Enter_groq_fill_missing t) (snd ses) -> nonempty t = true)
  /\ (filled_text (fst ses) <> PStr [] ->
      nonempty (ocr_text (fst ses)) = true)
  /\ (forall w ui r s' evs,
        script w ui (fst ses) = (r, s', evs) ->
        forall t, In (Enter_groq_fill_missing t) evs ->
                  t = ocr_text s' /\ nonempty t = true).
Proof.
  intros ses. split; [|split].
  - subst ses. unfold session_after.
    apply (session_from_ind
             (fun ses => forall t, In (Enter_groq_fill_missing t) (snd ses) ->
                                   nonempty t = true)).
    + intros ses [w ui] IH t Hin.
      destruct (rerun_facts ses w ui) as (r & evs & _ & Htr & F).
      rewrite Htr in Hin. apply in_app_or in Hin.
      destruct Hin as [Hin | Hin]; [now apply IH|].
      now apply (run_fill_argument _ _ _ _ _ _ F).
    + intros t [].
  - subst ses. unfold session_after.
    apply (session_from_ind
             (fun ses => filled_text (fst ses) <> PStr [] ->
                         nonempty (ocr_text (fst ses)) = true)).
    + intros ses [w ui] IH Hf.
      destruct (rerun_facts ses w ui) as (r & evs & _ & _ & F).
      destruct (run_filled_text _ _ _ _ _ _ F) as [Hsame | Hne];
        [|assumption].
      rewrite Hsame in Hf. specialize (IH Hf).
      rewrite (run_ocr_text _ _ _ _ _ _ F), IH. exact IH.
    + intros Hf. now contradiction Hf.
  - intros w ui r s' evs E t Hin.
    destruct (script_facts w ui (fst ses)) as (r0 & s0 & evs0 & E0 & F).
    rewrite E in E0. injection E0 as <- <- <-.
    now apply (run_fill_argument _ _ _ _ _ _ F).
Qed.

Lemma fill_only_with_document_text_witness :
  In (Enter_groq_fill_missing (form_page ++ nl))
     (snd (session_after [(stub_world, upload_and_fill [37%N])]))
  /\ nonempty (form_page ++ nl) = true.
Proof.
  assert (Hin : In (Enter_groq_fill_missing (form_page ++ nl))
                  (snd (session_after
                          [(stub_world, upload_and_fill [37%N])])))
    by (vm_compute; tauto).
  split; [exact Hin|].
  exact (proj1 (fill_only_with_document_text
                  [(stub_world, upload_and_fill [37%N])])
           (form_page ++ nl) Hin).
Defined.

(** C5 (amended): a run enters the Text Extractor exactly when a file is
    uploaded and Document Text is empty, and then once; a run reports at
    most one error, and exactly one when the extractor is entered and the
    PDF cannot be converted.  Once Document Text is non-empty, no later
    run enters the extractor or reports an error, however many there
    are. *)
Theorem extraction_guard (s : session_state) (w : world) (ui : widgets) :
  exists r s' evs,
    script w ui s = (r, s', evs)
    /\ count is_extraction evs =
       match uploaded ui with
       | Some _ => if nonempty (ocr_text s) then 0 else 1
       | None => 0
       end
    /\ count is_error_report evs <= count is_extraction evs
    /\ (forall pdf e,
          uploaded ui = Some pdf ->
          nonempty (ocr_text s) = false ->
          convert_from_bytes w pdf = inl e ->
          count is_error_report evs = 1)
    /\ (nonempty (ocr_text s) = true ->
        forall trace refreshes,
          count is_extraction (snd (session_from (s, trace) refreshes))
          = count is_extraction trace
          /\ count is_error_report (snd (session_from (s, trace) refreshes))
             = count is_error_report trace).
Proof.
  destruct (script_facts w ui s) as (r & s' & evs & E & F).
  exists r, s', evs. split; [exact E|].
  destruct F as [_ Hext Herr Hone _ _ _ _ _].
  repeat split; auto.
  - now apply (settled_session refreshes (s, trace)).
  - now apply (settled_session refreshes (s, trace)).
Qed.

(** After one upload that is read, ten refreshes with the file still
    uploaded enter the extractor no more. *)
Lemma extraction_guard_witness :
  count is_extraction
    (snd (session_from (with_ocr_text initial_state (form_page ++ nl), [])
            (repeat (stub_world, upload [37%N]) 10))) = 0.
Proof.
  destruct (extraction_guard (with_ocr_text initial_state (form_page ++ nl))
              stub_world (upload [37%N]))
    as (r & s' & evs & _ & _ & _ & _ & Hsettled).
  exact (proj1 (Hsettled eq_refl [] (repeat (stub_world, upload [37%N]) 10))).
Defined.

(** C5 as stated fails: a PDF that cannot be converted leaves Document
    Text empty, so the next run, with the file still uploaded, enters the
    extractor and reports the error again. *)
Lemma unconvertible_pdf_reported_again :
  ~ (forall (w : world) (pdf : bytes) (e : exn) (refreshes : nat),
       convert_from_bytes w pdf = inl e ->
       let trace :=
         snd (session_after (repeat (w, upload pdf) (S refreshes))) in
       count is_extraction trace <= 1
       /\ count is_error_report trace = 1).
Proof.
  intros H.
  specialize (H corrupt_world [37%N] not_a_pdf 1 eq_refl).
  destruct H as [_ H]. vm_compute in H. discriminate.
Qed.

(** Two questions after a fill: the run of the second question shows it
    first. *)
Example latest_question_shown_first :
  let ask q := {| uploaded := Some [37%N]; fill_button := false;
                  question_input := q |} in
  let ses := session_after [(stub_world, upload_and_fill [37%N]);
                            (stub_world, ask (lit "Name?"))] in
  map question
    (qa_history (fst (rerun ses (stub_world, ask (lit "Date?")))))
  = [lit "Name?"; lit "Date?"]
  /\ exists a1 a2,
       filter is_history_line
         (snd (script stub_world (ask (lit "Date?")) (fst ses)))
       = [St_markdown (lit "**Q:** Date?"); St_success a2;
          St_markdown (lit "**Q:** Name?"); St_success a1].
Proof.
  split; [reflexivity|]. eexists _, _. vm_compute. reflexivity.
Qed.

(** C9 (amended): a run stores the text extracted from the uploaded
    document only when Document Text is empty.  Once it is non-empty it
    never changes again in the session, whatever is uploaded. *)
Theorem document_text_set_once (ses : session) (w : world) (ui : widgets) :
  ocr_text (fst (rerun ses (w, ui))) =
    (if nonempty (ocr_text (fst ses)) then ocr_text (fst ses)
     else match uploaded ui with
          | Some pdf => ocr_output w pdf
          | None => []
          end)
  /\ (nonempty (ocr_text (fst ses)) = true ->
      forall runs,
        ocr_text (fst (session_from ses runs)) = ocr_text (fst ses)).
Proof.
  split.
  - destruct (rerun_facts ses w ui) as (r & evs & _ & _ & F).
    exact (run_ocr_text _ _ _ _ _ _ F).
  - intros Hne runs. now apply settled_session.
Qed.

(** A second document uploaded after a first one was read changes
    nothing. *)
Lemma document_text_set_once_witness :
  ocr_text
    (fst (session_from (session_after [(reading_world, upload [65%N])])
            [(reading_world, upload [66%N])]))
  = [65%N; NL].
Proof.
  exact (proj2 (document_text_set_once
                  (session_after [(reading_world, upload [65%N])])
                  reading_world (upload [66%N]))
           eq_refl [(reading_world, upload [66%N])]).
Defined.

(** C9 as stated fails: after a first document has been read, the upload
    of another one leaves the text of the first in place. *)
Lemma new_upload_keeps_old_text :
  ~ (forall (runs : list interaction) (w : world) (pdf : bytes),
       ocr_text (fst (rerun (session_after runs) (w, upload pdf)))
       = ocr_output w pdf).
Proof.
  intros H.
  specialize (H [(reading_world, upload [65%N])] reading_world [66%N]).
  vm_compute in H. discriminate.
Qed.

(* ===================================================================== *)
(** * Further properties *)
(* ===================================================================== *)

(** ** The renderer: what is drawn and where *)

Lemma split_nl_no_newline (s : str) :
  Forall (fun line => ~ In NL line) (split_nl s).
Proof.
  induction s as [|c s IH]; simpl.
  - constructor; [intros [] | constructor].
  - destruct (N.eqb_spec c NL) as [-> | Hc].
    + constructor; [intros [] | exact IH].
    + destruct (split_nl s) as [|l ls]; inversion IH; subst.
      * constructor; [|constructor]. intros [H | []]. now apply Hc.
      * constructor; [|assumption]. intros [H | H]; [now apply Hc | auto].
Qed.

Lemma lstrip_incl (s : str) (c : char) : In c (lstrip s) -> In c s.
Proof.
  induction s as [|d s IH]; simpl; [auto|].
  destruct (is_space d); simpl; auto.
Qed.

Lemma strip_incl (s : str) (c : char) : In c (strip s) -> In c s.
Proof.
  unfold strip, rstrip. intros H.
  apply in_rev, lstrip_incl in H. apply in_rev in H.
  now apply lstrip_incl.
Qed.

Lemma in_firstn (n : nat) (s : str) (c : char) : In c (firstn n s) -> In c s.
Proof.
  intros H. rewrite <- (firstn_skipn n s). apply in_or_app. now left.
Qed.

Lemma in_skipn (n : nat) (s : str) (c : char) : In c (skipn n s) -> In c s.
Proof.
  intros H. rewrite <- (firstn_skipn n s). apply in_or_app. now right.
Qed.

(** The calls of the wrap loop: full-width pieces of the line at the left
    margin, from the cursor downwards. *)
Lemma wrap_loop_ops (line : str) (y : Z) :
  let '(ops, rest, y1) := wrap_loop line y in
  Forall (fun op => exists y' s,
              op = DrawString 40 y' s
              /\ (y1 < y' <= y)%Z
              /\ length s = 110
              /\ (forall c, In c s -> In c line)) ops
  /\ (forall c, In c rest -> In c line)
  /\ (y1 <= y)%Z.
Proof.
  remember (length line) as n eqn:Hn.
  revert line y Hn.
  induction n as [n IH] using lt_wf_ind. intros line y Hn.
  destruct (le_lt_dec (length line) 110) as [Hle | Hlt].
  - rewrite wrap_loop_short by assumption.
    split; [constructor|]. split; [auto | lia].
  - rewrite wrap_loop_long by assumption.
    assert (Hskip : length (skipn 110 line) = length line - 110)
      by apply length_skipn.
    specialize (IH (length (skipn 110 line)) ltac:(lia)
                  (skipn 110 line) (y - 12)%Z eq_refl).
    destruct (wrap_loop (skipn 110 line) (y - 12)) as [[ops rest] y1].
    destruct IH as (Hops & Hrest & Hy).
    split; [|split].
    + constructor.
      * exists y, (firstn 110 line). repeat split; try lia.
        -- rewrite length_firstn. lia.
        -- intros c. apply in_firstn.
      * eapply Forall_impl; [|exact Hops].
        intros op (y' & s & -> & Hy' & Hlen & Hin).
        exists y', s. repeat split; try lia; auto.
        intros c Hc. eapply in_skipn. now apply Hin.
    + intros c Hc. eapply in_skipn. now apply Hrest.
    + lia.
Qed.

(** The two ways through one iteration of the loop over the lines. *)
Lemma render_line_cases (y : Z) (line : str) :
  (blank line = true /\ render_line y line = ([], y - 12)%Z)
  \/ (blank line = false
      /\ exists wops rest y1,
           wrap_loop line y = (wops, rest, y1)
           /\ render_line y line =
              if (y1 - 12 <? 40)%Z
              then (wops ++ [DrawString 40 y1 (strip rest);
                             ShowPage; SetFont "Helvetica" 10],
                    height - 40)%Z
              else (wops ++ [DrawString 40 y1 (strip rest)], y1 - 12)%Z).
Proof.
  unfold render_line, blank.
  destruct (negb (nonempty (strip line))); [left; auto | right].
  split; [reflexivity|].
  destruct (wrap_loop line y) as [[wops rest] y1].
  exists wops, rest, y1. split; [reflexivity|].
  destruct (y1 - 12 <? 40)%Z; [|reflexivity].
  now rewrite <- app_assoc.
Qed.

Lemma render_line_well_placed (y : Z) (line : str) :
  ~ In NL line -> Forall well_placed (fst (render_line y line)).
Proof.
  intros Hnl.
  destruct (render_line_cases y line)
    as [[_ ->] | [_ (wops & rest & y1 & Hw & ->)]]; [constructor|].
  pose proof (wrap_loop_ops line y) as Hops.
  pose proof (wrap_loop_wrapped line y) as W.
  rewrite Hw in Hops, W. destruct Hops as (Hops & Hrest & _).
  assert (Hchunks : Forall well_placed wops).
  { eapply Forall_impl; [|exact Hops].
    intros op (y' & s & -> & _ & Hlen & Hin). simpl.
    repeat split; [lia|]. intros H. now apply Hnl, Hin. }
  assert (Hlast : well_placed (DrawString 40 y1 (strip rest))).
  { simpl. repeat split.
    - pose proof (strip_length rest).
      pose proof (wrapped_rest _ _ _ _ _ W). lia.
    - intros H. now apply Hnl, Hrest, strip_incl. }
  destruct (y1 - 12 <? 40)%Z; simpl; apply Forall_app;
    (split; [exact Hchunks|]);
    (constructor; [exact Hlast|]);
    repeat (constructor; [exact I|]); constructor.
Qed.

(** X1: whatever the text, every string that [generate_pdf] draws is
    drawn at x = 40, has at most 110 characters and contains no newline. *)
Theorem drawn_strings_well_placed (text : str) :
  Forall well_placed (generate_pdf text).
Proof.
  unfold generate_pdf. apply Forall_app. split.
  - unfold header. constructor; [exact I|].
    constructor; [|repeat constructor].
    split; [reflexivity|]. split; [vm_compute; lia|].
    vm_compute. intuition discriminate.
  - apply Forall_app. split; [|repeat constructor].
    pose proof (split_nl_no_newline text) as Hlines.
    generalize y0.
    induction Hlines as [|line lines Hline _ IH]; intros y; simpl;
      [constructor|].
    pose proof (render_line_well_placed y line Hline) as H.
    destruct (render_line y line) as [ops y']. simpl in H.
    apply Forall_app. split; [exact H | apply IH].
Qed.

Lemma blank_false_length (line : str) : blank line = false -> 0 < length line.
Proof.
  unfold blank. destruct line; simpl; [discriminate | lia].
Qed.

Lemma render_line_drawn_for (y : Z) (line : str) :
  length (drawn (fst (render_line y line))) = drawn_for line.
Proof.
  unfold drawn_for.
  destruct (render_line_cases y line)
    as [[-> ->] | [Hb (wops & rest & y1 & Hw & ->)]]; [reflexivity|].
  rewrite Hb.
  pose proof (wrap_loop_wrapped line y) as W. rewrite Hw in W.
  rewrite <- (wrapped_count _ _ _ _ _ W) by now apply blank_false_length.
  destruct (y1 - 12 <? 40)%Z; simpl; rewrite drawn_app, length_app;
    rewrite (wrapped_all_drawn _ _ _ _ _ W); simpl; lia.
Qed.

(** X2: the number of strings drawn is one, for the title, plus for each
    line of the text that is not blank [ceil(len / 110)]; a blank line
    draws nothing. *)
Theorem drawn_strings_count (text : str) :
  length (drawn (generate_pdf text))
  = 1 + list_sum (map drawn_for (split_nl text)).
Proof.
  unfold generate_pdf. rewrite !drawn_app, !length_app.
  change (length (drawn header)) with 1.
  change (length (drawn [Save])) with 0.
  rewrite Nat.add_0_r. f_equal.
  generalize y0. induction (split_nl text) as [|line lines IH]; intros y;
    simpl; [reflexivity|].
  pose proof (render_line_drawn_for y line) as H.
  destruct (render_line y line) as [ops y']. simpl in H.
  now rewrite drawn_app, length_app, H, IH.
Qed.

Lemma drawn_at_app (a b : list canvas_op) :
  drawn_at (a ++ b) = drawn_at a ++ drawn_at b.
Proof.
  induction a as [|op a IH]; simpl; [reflexivity|].
  destruct op; simpl; now rewrite ?IH.
Qed.

Lemma drawn_at_wrap_loop (line : str) (y : Z) (top : Z) :
  (y <= top)%Z ->
  let '(ops, rest, y1) := wrap_loop line y in
  Forall (fun y' => y' <= top)%Z (drawn_at ops) /\ (y1 <= y)%Z.
Proof.
  intros Hy. pose proof (wrap_loop_ops line y) as H.
  destruct (wrap_loop line y) as [[ops rest] y1].
  destruct H as (Hops & _ & Hy1). split; [|exact Hy1].
  induction Hops as [|op ops (y' & s & -> & Hy' & _) _ IH]; simpl;
    constructor; [lia | exact IH].
Qed.

Lemma render_line_below_top (y : Z) (line : str) :
  (y <= height - 40)%Z ->
  Forall (fun y' => y' <= height - 40)%Z (drawn_at (fst (render_line y line)))
  /\ (snd (render_line y line) <= height - 40)%Z.
Proof.
  intros Hy.
  destruct (render_line_cases y line)
    as [[_ ->] | [_ (wops & rest & y1 & Hw & ->)]].
  - cbn [fst snd drawn_at]. split; [constructor | lia].
  - pose proof (drawn_at_wrap_loop line y (height - 40) Hy) as H.
    rewrite Hw in H. destruct H as (Hops & Hy1).
    destruct (y1 - 12 <? 40)%Z; cbn [fst snd]; rewrite drawn_at_app;
      cbn [drawn_at app];
      (split; [apply Forall_app; split;
                 [exact Hops | constructor; [lia | constructor]]
              | lia]).
Qed.

(** X3: whatever the text, nothing is drawn above the top margin: every
    string is drawn at a height of at most [height - 40], where the title
    stands. *)
Theorem nothing_drawn_above_top_margin (text : str) :
  Forall (fun y => y <= height - 40)%Z (drawn_at (generate_pdf text)).
Proof.
  unfold generate_pdf. rewrite !drawn_at_app.
  apply Forall_app. split; [repeat constructor; vm_compute; discriminate|].
  apply Forall_app. split; [|constructor].
  assert (H0 : (y0 <= height - 40)%Z) by (vm_compute; discriminate).
  revert H0. generalize y0.
  induction (split_nl text) as [|line lines IH]; intros y Hy; simpl;
    [constructor|].
  destruct (render_line_below_top y line Hy) as (Hops & Hy').
  destruct (render_line y line) as [ops y']. simpl in *.
  rewrite drawn_at_app. apply Forall_app. split; [exact Hops | now apply IH].
Qed.

Lemma blank_false_nonempty (line : str) :
  blank line = false -> nonempty (strip line) = true.
Proof. unfold blank. now destruct (nonempty (strip line)). Qed.

(** X4: when no line of the text is blank or longer than 110 characters,
    the page test follows every string drawn, and no string is drawn
    below the bottom margin: every one is drawn at a height of at least
    40. *)
Theorem short_lines_stay_above_bottom_margin (text : str) :
  Forall (fun line => blank line = false /\ length line <= 110)
    (split_nl text) ->
  Forall (fun y => 40 <= y)%Z (drawn_at (generate_pdf text)).
Proof.
  intros Hlines.
  unfold generate_pdf. rewrite !drawn_at_app.
  apply Forall_app. split; [repeat constructor; vm_compute; discriminate|].
  apply Forall_app. split; [|constructor].
  assert (H0 : (40 <= y0)%Z) by (vm_compute; discriminate).
  revert H0. generalize y0.
  induction Hlines as [|line lines (Hb & Hlen) _ IH]; intros y Hy; simpl;
    [constructor|].
  destruct (render_line_short_on_page y line
              (blank_false_nonempty line Hb) Hlen Hy) as (Hops & Hy').
  destruct (render_line y line) as [ops y']. simpl in *.
  rewrite drawn_at_app. apply Forall_app.
  split; [exact Hops | now apply IH].
Qed.

(** Sixty short lines: the page is turned after the 57th, which is drawn
    at 50, and the rest is drawn from the top of the next page. *)
Lemma short_lines_stay_above_bottom_margin_witness :
  Forall (fun y => 40 <= y)%Z
    (drawn_at (generate_pdf (concat (repeat (lit "x" ++ nl) 59) ++ lit "x"))).
Proof.
  apply short_lines_stay_above_bottom_margin.
  vm_compute. repeat (constructor; [split; [reflexivity | lia]|]).
  constructor.
Defined.

(** ** The renderer: page breaks *)

Lemma font_follows_breaks_draws (ds rest : list canvas_op) :
  Forall (fun op => is_draw op = true) ds ->
  font_follows_breaks rest ->
  font_follows_breaks (ds ++ rest).
Proof.
  intros Hds Hrest.
  induction Hds as [|op ds Hop _ IH]; simpl; [exact Hrest|].
  destruct op; try discriminate Hop. exact IH.
Qed.

(** The calls of one iteration: strings, and after them at most one page
    break with the font set again. *)
Lemma render_line_shape (y : Z) (line : str) :
  exists ds,
    Forall (fun op => is_draw op = true) ds
    /\ (fst (render_line y line) = ds
        \/ (blank line = false
            /\ fst (render_line y line)
               = ds ++ [ShowPage; SetFont "Helvetica" 10])).
Proof.
  destruct (render_line_cases y line)
    as [[_ ->] | [Hb (wops & rest & y1 & Hw & ->)]].
  - exists []. split; [constructor | now left].
  - pose proof (wrap_loop_ops line y) as H. rewrite Hw in H.
    destruct H as (Hops & _ & _).
    exists (wops ++ [DrawString 40 y1 (strip rest)]). split.
    + apply Forall_app. split; [|repeat constructor].
      eapply Forall_impl; [|exact Hops].
      now intros op (y' & s & -> & _).
    + destruct (y1 - 12 <? 40)%Z; cbn [fst]; [right | now left].
      split; [exact Hb|]. now rewrite <- app_assoc.
Qed.

Lemma page_breaks_app (a b : list canvas_op) :
  page_breaks (a ++ b) = page_breaks a + page_breaks b.
Proof. unfold page_breaks. now rewrite filter_app, length_app. Qed.

Lemma page_breaks_draws (ds : list canvas_op) :
  Forall (fun op => is_draw op = true) ds -> page_breaks ds = 0.
Proof.
  intros H. unfold page_breaks.
  induction H as [|op ds Hop _ IH]; simpl; [reflexivity|].
  destruct op; try discriminate Hop. exact IH.
Qed.

Lemma not_save_draws (ds : list canvas_op) :
  Forall (fun op => is_draw op = true) ds -> ~ In Save ds.
Proof.
  intros H Hin. rewrite Forall_forall in H.
  specialize (H Save Hin). discriminate H.
Qed.

(** X5: the output of [generate_pdf] is the header, the calls for the
    lines, and one final [save]; every [showPage] in it is directly
    followed by [setFont("Helvetica", 10)]; and there is at most one page
    break for each line that is not blank, however long the line is. *)
Theorem page_breaks_reapply_font (text : str) :
  font_follows_breaks (generate_pdf text)
  /\ page_breaks (generate_pdf text)
     <= length (filter (fun line => negb (blank line)) (split_nl text))
  /\ exists body,
       generate_pdf text = header ++ body ++ [Save] /\ ~ In Save body.
Proof.
  unfold generate_pdf. split; [|split].
  - unfold header. cbn [app font_follows_breaks].
    generalize y0.
    induction (split_nl text) as [|line lines IH]; intros y;
      cbn [render_lines app font_follows_breaks]; [exact I|].
    destruct (render_line_shape y line) as (ds & Hds & [E | [_ E]]);
      destruct (render_line y line) as [ops y']; cbn [fst] in E; subst ops;
      rewrite <- !app_assoc;
      apply font_follows_breaks_draws; try exact Hds.
    + apply IH.
    + cbn [app font_follows_breaks]. split; [eexists; reflexivity|].
      apply IH.
  - rewrite !page_breaks_app.
    change (page_breaks header) with 0. change (page_breaks [Save]) with 0.
    rewrite Nat.add_0_r. cbn [Nat.add].
    generalize y0.
    induction (split_nl text) as [|line lines IH]; intros y;
      cbn [render_lines]; [apply Nat.le_0_l|].
    destruct (render_line_shape y line) as (ds & Hds & [E | [Hb E]]);
      destruct (render_line y line) as [ops y']; cbn [fst] in E; subst ops;
      rewrite ?page_breaks_app, (page_breaks_draws ds Hds);
      specialize (IH y'); cbn [filter].
    + destruct (negb (blank line)); cbn [Datatypes.length]; lia.
    + rewrite Hb. cbn [negb Datatypes.length].
      change (page_breaks [ShowPage; SetFont "Helvetica" 10]) with 1. lia.
  - exists (render_lines y0 (split_nl text)). split; [reflexivity|].
    generalize y0.
    induction (split_nl text) as [|line lines IH]; intros y;
      cbn [render_lines]; [intros []|].
    destruct (render_line_shape y line) as (ds & Hds & [E | [_ E]]);
      destruct (render_line y line) as [ops y']; cbn [fst] in E; subst ops;
      intros Hin; apply in_app_or in Hin; destruct Hin as [Hin | Hin];
      try (now apply (IH y')).
    + now apply (not_save_draws ds Hds).
    + apply in_app_or in Hin. destruct Hin as [Hin | Hin].
      * now apply (not_save_draws ds Hds).
      * destruct Hin as [[=] | [[=] | []]].
Qed.

(** ** The clients: the answer of the service *)

(** X6: when the service answers 200, a client returns the content found
    in the response as it is; when that content cannot be found (the body
    is not JSON, or has not the expected shape), the error is caught and
    the client returns the string [Request failed: e] instead. *)
Theorem clients_return_content
  (w : world) (text : str) (filled : pyval) (question : str)
  (resp : response) :
  status_code resp = 200%Z ->
  (requests_post w (fill_request w text) = inr resp ->
   fst (groq_fill_missing w text) =
   inr (match json_content resp with
        | inr v => v
        | inl e => PStr (cross_mark :: lit " Request failed: " ++ exn_str e)
        end))
  /\ (requests_post w (answer_request w filled question) = inr resp ->
      fst (groq_answer_question w filled question) =
      inr (match json_content resp with
           | inr v => v
           | inl e => PStr (cross_mark :: lit " Request failed: "
                            ++ exn_str e)
           end)).
Proof.
  intros Hs. split; intros Hp.
  - unfold groq_fill_missing. simpl. rewrite Hp. simpl. rewrite Hs. simpl.
    destruct (json_content resp); reflexivity.
  - unfold groq_answer_question. simpl. rewrite Hp. simpl. rewrite Hs. simpl.
    destruct (json_content resp); reflexivity.
Qed.

(** The stub service echoes the prompt, which comes back unchanged. *)
Lemma clients_return_content_witness :
  fst (groq_fill_missing stub_world form_page)
  = inr (PStr (fill_prompt form_page)).
Proof.
  exact (proj1 (clients_return_content stub_world form_page
                  (PStr form_page) (lit "Name?")
                  {| status_code := 200;
                     text := fill_prompt form_page;
                     json_content := inr (PStr (fill_prompt form_page)) |}
                  eq_refl)
           eq_refl).
Defined.

(** X7: a call of a client makes exactly one POST, of the request built
    from its arguments, whatever the service does: nothing is retried
    after a failure.  The request is made also when the API key is not
    set, with the header [Bearer None]. *)
Theorem clients_post_once
  (w : world) (text : str) (filled : pyval) (question : str) :
  filter is_post (snd (groq_fill_missing w text))
  = [Call_requests_post (fill_request w text)]
  /\ filter is_post (snd (groq_answer_question w filled question))
     = [Call_requests_post (answer_request w filled question)]
  /\ (GROQ_API_KEY w = None ->
      req_authorization (fill_request w text) = lit "Bearer None"
      /\ req_authorization (answer_request w filled question)
         = lit "Bearer None").
Proof.
  split; [|split].
  - unfold groq_fill_missing. simpl.
    destruct (requests_post w (fill_request w text)) as [e | resp]; simpl;
      [reflexivity|].
    destruct (status_code resp =? 200)%Z; simpl; [|reflexivity].
    destruct (json_content resp); reflexivity.
  - unfold groq_answer_question. simpl.
    destruct (requests_post w (answer_request w filled question))
      as [e | resp]; simpl; [reflexivity|].
    destruct (status_code resp =? 200)%Z; simpl; [|reflexivity].
    destruct (json_content resp); reflexivity.
  - intros Hk. unfold fill_request, answer_request, bearer. simpl.
    rewrite Hk. split; reflexivity.
Qed.

Lemma clients_post_once_witness :
  req_authorization (fill_request corrupt_world form_page)
  = lit "Bearer None".
Proof.
  exact (proj1 (proj2 (proj2
    (clients_post_once corrupt_world form_page (PStr form_page)
       (lit "Name?"))) eq_refl)).
Defined.

(** ** One run of the script, phase by phase *)

Lemma fill_output_returns (w : world) (text : str) :
  groq_fill_missing w text =
  (inr (fill_output w text),
   [Enter_groq_fill_missing text; Call_requests_post (fill_request w text)]).
Proof.
  unfold fill_output.
  destruct (groq_fill_missing_returns w text) as (v & ->). reflexivity.
Qed.

Lemma answer_output_returns (w : world) (text : pyval) (q : str) :
  groq_answer_question w text q =
  (inr (answer_output w text q),
   [Enter_groq_answer_question text q;
    Call_requests_post (answer_request w text q)]).
Proof.
  unfold answer_output.
  destruct (groq_answer_question_returns w text q) as (v & ->). reflexivity.
Qed.

Lemma show_extracted_text_exact (w : world) (ui : widgets)
  (s : session_state) :
  show_extracted_text w ui s =
  if nonempty (ocr_text s) then
    if fill_button ui then
      (inr tt, with_filled_text s (fill_output w (ocr_text s)),
       [St_text_area (lit "Scanned Text") (PStr (ocr_text s));
        Enter_groq_fill_missing (ocr_text s);
        Call_requests_post (fill_request w (ocr_text s))])
    else (inr tt, s, [St_text_area (lit "Scanned Text") (PStr (ocr_text s))])
  else (inr tt, s, []).
Proof.
  unfold show_extracted_text. simpl.
  destruct (nonempty (ocr_text s)); simpl; [|reflexivity].
  destruct (fill_button ui); simpl; [|reflexivity].
  unfold call. rewrite fill_output_returns. simpl. reflexivity.
Qed.

Lemma show_filled_output_exact (w : world) (ui : widgets)
  (s : session_state) :
  show_filled_output w ui s =
  if truthy (filled_text s) then
    match filled_text s with
    | PStr t =>
        if nonempty (question_input ui) then
          (inr tt,
           with_appended s
             (QA (question_input ui)
                (answer_output w (filled_text s) (question_input ui))),
           [St_text_area (lit "AI-Filled Text") (filled_text s);
            St_download_button (lit "AI_Filled_Form.pdf") (generate_pdf t);
            Enter_groq_answer_question (filled_text s) (question_input ui);
            Call_requests_post
              (answer_request w (filled_text s) (question_input ui))])
        else
          (inr tt, s,
           [St_text_area (lit "AI-Filled Text") (filled_text s);
            St_download_button (lit "AI_Filled_Form.pdf") (generate_pdf t)])
    | PObj _ _ =>
        (inl (Exn "AttributeError" (lit "split")), s,
         [St_text_area (lit "AI-Filled Text") (filled_text s)])
    end
  else (inr tt, s, []).
Proof.
  unfold show_filled_output. simpl.
  destruct (truthy (filled_text s)); simpl; [|reflexivity].
  destruct (filled_text s) as [t | b r] eqn:E; simpl; [|reflexivity].
  destruct (nonempty (question_input ui)); simpl; [|reflexivity].
  unfold call. rewrite E, answer_output_returns. simpl. reflexivity.
Qed.

(** The run is its four phases in sequence; the history is shown when the
    third phase has not raised. *)
Lemma script_phases (w : world) (ui : widgets) (s : session_state) :
  exists s1 e1 s2 e2 r3 s3 e3,
    upload_and_ocr w ui s = (inr tt, s1, e1)
    /\ show_extracted_text w ui s1 = (inr tt, s2, e2)
    /\ show_filled_output w ui s2 = (r3, s3, e3)
    /\ script w ui s =
       (r3, s3,
        e1 ++ e2 ++ e3
        ++ match r3 with
           | inr _ => history_lines (rev (qa_history s3))
           | inl _ => []
           end).
Proof.
  destruct (upload_and_ocr_facts w ui s) as (s1 & e1 & E1 & _).
  destruct (show_extracted_text_facts w ui s1) as (s2 & e2 & E2 & _).
  destruct (show_filled_output_facts w ui s2) as (r3 & s3 & e3 & E3 & _).
  exists s1, e1, s2, e2, r3, s3, e3. repeat split; auto.
  unfold script. simpl. rewrite E1, E2, E3.
  destruct r3 as [e | []]; simpl.
  - now rewrite app_nil_r.
  - now rewrite show_qa_history_run.
Qed.

(** The state after each phase, from the state before it. *)
Lemma upload_and_ocr_state (w : world) (ui : widgets)
  (s s1 : session_state) (r : exn + unit) (e1 : list event) :
  upload_and_ocr w ui s = (r, s1, e1) ->
  filled_text s1 = filled_text s /\ qa_history s1 = qa_history s.
Proof.
  rewrite upload_and_ocr_run.
  destruct (uploaded ui); [destruct (nonempty (ocr_text s))|];
    intros [= <- <- <-]; auto.
Qed.

Lemma show_extracted_text_state (w : world) (ui : widgets)
  (s1 s2 : session_state) (r : exn + unit) (e2 : list event) :
  show_extracted_text w ui s1 = (r, s2, e2) ->
  ocr_text s2 = ocr_text s1
  /\ qa_history s2 = qa_history s1
  /\ filled_text s2 =
     (if fill_button ui && nonempty (ocr_text s1)
      then fill_output w (ocr_text s1) else filled_text s1)
  /\ filter is_download e2 = []
  /\ filter is_call e2 =
     (if fill_button ui && nonempty (ocr_text s1)
      then [Call_requests_post (fill_request w (ocr_text s1))] else []).
Proof.
  rewrite show_extracted_text_exact.
  destruct (nonempty (ocr_text s1)); destruct (fill_button ui);
    intros [= <- <- <-]; auto.
Qed.

Lemma show_filled_output_state (w : world) (ui : widgets)
  (s2 s3 : session_state) (r3 : exn + unit) (e3 : list event) :
  show_filled_output w ui s2 = (r3, s3, e3) ->
  ocr_text s3 = ocr_text s2
  /\ filled_text s3 = filled_text s2
  /\ qa_history s3 =
     qa_history s2
     ++ (if truthy (filled_text s2) && is_str (filled_text s2)
            && nonempty (question_input ui)
         then [QA (question_input ui)
                 (answer_output w (filled_text s2) (question_input ui))]
         else [])
  /\ r3 =
     (if truthy (filled_text s2) && negb (is_str (filled_text s2))
      then inl (Exn "AttributeError" (lit "split")) else inr tt)
  /\ filter is_download e3 =
     match filled_text s2 with
     | PStr t =>
         if nonempty t
         then [St_download_button (lit "AI_Filled_Form.pdf") (generate_pdf t)]
         else []
     | PObj _ _ => []
     end
  /\ (nonempty (question_input ui) = false -> s3 = s2)
  /\ (nonempty (question_input ui) = false -> filter is_call e3 = []).
Proof.
  rewrite show_filled_output_exact.
  destruct (filled_text s2) as [t | b rd] eqn:Ef; simpl.
  - destruct (nonempty t); simpl;
      [destruct (nonempty (question_input ui))|];
      intros [= <- <- <-]; simpl; rewrite ?app_nil_r;
      repeat split; auto; discriminate.
  - destruct b; simpl; intros [= <- <- <-]; simpl; rewrite ?app_nil_r;
      repeat split; auto.
Qed.

Lemma pdf_to_text_no_download (w : world) (pdf : bytes) :
  filter is_download (snd (pdf_to_text w pdf)) = [].
Proof.
  destruct (pdf_to_text_cases w pdf)
    as (calls & Hcalls & [(texts & ->) | (e & ->)]); simpl;
    rewrite ?filter_app, (filter_calls is_download calls)
      by (kinds || assumption); reflexivity.
Qed.

Lemma upload_and_ocr_quiet (w : world) (ui : widgets)
  (s s1 : session_state) (r : exn + unit) (e1 : list event) :
  upload_and_ocr w ui s = (r, s1, e1) ->
  filter is_download e1 = []
  /\ (uploaded ui = None \/ nonempty (ocr_text s) = true ->
      s1 = s /\ e1 = []).
Proof.
  rewrite upload_and_ocr_run.
  destruct (uploaded ui) as [pdf|]; [destruct (nonempty (ocr_text s))|];
    intros [= <- <- <-]; split; auto.
  - apply pdf_to_text_no_download.
  - intros [[=] | [=]].
Qed.

(** The state and the outcome of a run, from the state before it. *)
Lemma script_exact (w : world) (ui : widgets) (s : session_state) :
  exists r s' evs,
    script w ui s = (r, s', evs)
    /\ filled_text s' =
       (if fill_button ui && nonempty (ocr_text s')
        then fill_output w (ocr_text s') else filled_text s)
    /\ qa_history s' =
       qa_history s
       ++ (if truthy (filled_text s') && is_str (filled_text s')
              && nonempty (question_input ui)
           then [QA (question_input ui)
                   (answer_output w (filled_text s') (question_input ui))]
           else [])
    /\ r =
       (if truthy (filled_text s') && negb (is_str (filled_text s'))
        then inl (Exn "AttributeError" (lit "split")) else inr tt)
    /\ filter is_download evs =
       match filled_text s' with
       | PStr t =>
           if nonempty t
           then [St_download_button (lit "AI_Filled_Form.pdf")
                   (generate_pdf t)]
           else []
       | PObj _ _ => []
       end.
Proof.
  destruct (script_phases w ui s)
    as (s1 & e1 & s2 & e2 & r3 & s3 & e3 & E1 & E2 & E3 & E).
  destruct (upload_and_ocr_state _ _ _ _ _ _ E1) as (Hf1 & Hh1).
  destruct (upload_and_ocr_quiet _ _ _ _ _ _ E1) as (Hd1 & _).
  destruct (show_extracted_text_state _ _ _ _ _ _ E2)
    as (Ho2 & Hh2 & Hf2 & Hd2 & _).
  destruct (show_filled_output_state _ _ _ _ _ _ E3)
    as (Ho3 & Hf3 & Hh3 & Hr3 & Hd3 & _).
  eexists r3, s3, _. split; [exact E|].
  rewrite Hf3, Ho3, Ho2. repeat split.
  - now rewrite Hf2, Hf1.
  - now rewrite Hh3, Hh2, Hh1.
  - exact Hr3.
  - rewrite !filter_app, Hd1, Hd2, Hd3.
    replace (filter is_download _) with (@nil event).
    + now rewrite app_nil_r.
    + destruct r3; [reflexivity|].
      symmetry. apply filter_history_lines. kinds.
Qed.

(** X8: Filled Text changes in a run only through the fill button: when
    the button is clicked and Document Text is not empty, Filled Text
    becomes what the Form Completion Client returns for Document Text,
    replacing what was there; in every other run it stays as it was. *)
Theorem filled_text_overwritten_by_fill
  (ses : session) (w : world) (ui : widgets) :
  let s' := fst (rerun ses (w, ui)) in
  filled_text s' =
  if fill_button ui && nonempty (ocr_text s')
  then fill_output w (ocr_text s') else filled_text (fst ses).
Proof.
  destruct (script_exact w ui (fst ses)) as (r & s' & evs & E & Hf & _).
  unfold rerun. simpl. rewrite E. simpl. exact Hf.
Qed.

(** X9: a run appends to the history exactly when Filled Text is a
    non-empty string and the question box is not empty, and what it
    appends is the question with what the Question-Answering Client
    returns for Filled Text, as it is in that run, and the question. *)
Theorem asked_question_recorded_with_answer
  (ses : session) (w : world) (ui : widgets) :
  let s' := fst (rerun ses (w, ui)) in
  qa_history s' =
  qa_history (fst ses)
  ++ (if truthy (filled_text s') && is_str (filled_text s')
         && nonempty (question_input ui)
      then [QA (question_input ui)
              (answer_output w (filled_text s') (question_input ui))]
      else []).
Proof.
  destruct (script_exact w ui (fst ses)) as (r & s' & evs & E & _ & Hh & _).
  unfold rerun. simpl. rewrite E. simpl. exact Hh.
Qed.

(** X10: a run of the script raises exactly when Filled Text, after the
    fill of that run, is a true value that is not a string: [generate_pdf]
    then fails with an [AttributeError], nothing catches it, and the run
    ends before a download is offered and before the history is shown.
    Every other run completes. *)
Theorem run_dies_only_in_generate_pdf
  (w : world) (ui : widgets) (s : session_state) :
  exists r s' evs,
    script w ui s = (r, s', evs)
    /\ if truthy (filled_text s') && negb (is_str (filled_text s'))
       then (exists e, r = inl e /\ exn_class e = "AttributeError"%string)
            /\ filter is_download evs = []
            /\ filter is_history_line evs = []
            /\ qa_history s' = qa_history s
       else r = inr tt.
Proof.
  destruct (script_exact w ui s)
    as (r & s' & evs & E & _ & Hh & Hr & Hd).
  destruct (script_facts w ui s) as (r0 & s0 & evs0 & E0 & F).
  rewrite E in E0. injection E0 as <- <- <-.
  exists r, s', evs. split; [exact E|].
  destruct (filled_text s') as [t | b rd]; simpl in *.
  - rewrite andb_false_r in Hr |- *. exact Hr.
  - rewrite andb_true_r in Hr |- *. rewrite andb_false_r in Hh.
    destruct b; simpl in *; [|exact Hr].
    repeat split.
    + eexists. split; [exact Hr | reflexivity].
    + exact Hd.
    + rewrite (run_display _ _ _ _ _ _ F), Hr. reflexivity.
    + now rewrite Hh, app_nil_r.
Qed.

(** X11: whenever Filled Text is a non-empty string, the run regenerates
    the PDF from it and offers exactly one download, whose content is
    [generate_pdf] of Filled Text as it is after the fill of that run;
    otherwise no download is offered. *)
Theorem download_is_rendered_filled_text
  (w : world) (ui : widgets) (s : session_state) :
  exists r s' evs,
    script w ui s = (r, s', evs)
    /\ filter is_download evs =
       match filled_text s' with
       | PStr t =>
           if nonempty t
           then [St_download_button (lit "AI_Filled_Form.pdf")
                   (generate_pdf t)]
           else []
       | PObj _ _ => []
       end.
Proof.
  destruct (script_exact w ui s) as (r & s' & evs & E & _ & _ & _ & Hd).
  exists r, s', evs. auto.
Qed.

(** X12: a refresh in which no question is typed and the fill button is
    not clicked, with nothing uploaded or with Document Text already
    there, leaves the session state exactly as it was and calls none of
    the services. *)
Theorem idle_refresh_changes_nothing
  (w : world) (ui : widgets) (s : session_state) :
  uploaded ui = None \/ nonempty (ocr_text s) = true ->
  fill_button ui = false ->
  nonempty (question_input ui) = false ->
  exists r evs, script w ui s = (r, s, evs) /\ filter is_call evs = [].
Proof.
  intros Hup Hfill Hq.
  destruct (script_phases w ui s)
    as (s1 & e1 & s2 & e2 & r3 & s3 & e3 & E1 & E2 & E3 & E).
  destruct (upload_and_ocr_quiet _ _ _ _ _ _ E1) as (_ & H1).
  destruct (H1 Hup) as (-> & ->).
  rewrite show_extracted_text_exact, Hfill in E2.
  assert (Hs2 : s2 = s /\ filter is_call e2 = [])
    by (destruct (nonempty (ocr_text s)); injection E2 as <- <-; auto).
  destruct Hs2 as (-> & Hc2).
  destruct (show_filled_output_state _ _ _ _ _ _ E3)
    as (_ & _ & _ & _ & _ & Hs3 & Hc3).
  rewrite (Hs3 Hq) in E. eexists r3, _. split; [exact E|].
  cbn [app]. rewrite !filter_app, Hc2, (Hc3 Hq). cbn [app].
  destruct r3; [reflexivity|]. apply filter_history_lines. kinds.
Qed.

Lemma idle_refresh_changes_nothing_witness :
  fst (rerun (session_after [(stub_world, upload_and_fill [37%N])])
         (offline_world, idle))
  = fst (session_after [(stub_world, upload_and_fill [37%N])]).
Proof.
  destruct (idle_refresh_changes_nothing offline_world idle
              (fst (session_after [(stub_world, upload_and_fill [37%N])]))
              (or_introl eq_refl) eq_refl eq_refl)
    as (r & evs & E & _).
  unfold rerun. cbn [fst snd]. rewrite E. reflexivity.
Defined.

(** ** Invariants of a session *)

Lemma ocr_output_shape (w : world) (pdf : bytes) :
  ocr_output w pdf = [] \/ exists t', ocr_output w pdf = t' ++ nl.
Proof.
  unfold ocr_output.
  destruct (pdf_to_text_cases w pdf)
    as (calls & _ & [(texts & ->) | (e & ->)]); simpl; [|now left].
  destruct texts as [|t texts]; [now left | right].
  now apply concat_lines_end.
Qed.

Lemma rerun_state (ses : session) (w : world) (ui : widgets)
  (r : exn + unit) (s' : session_state) (evs : list event) :
  script w ui (fst ses) = (r, s', evs) -> fst (rerun ses (w, ui)) = s'.
Proof. intros E. unfold rerun. cbn [fst snd]. now rewrite E. Qed.

(** X13: in every session, Document Text is empty or ends with a
    newline: it is only ever set to a result of [pdf_to_text]. *)
Theorem document_text_ends_with_newline (runs : list interaction) :
  let t := ocr_text (fst (session_after runs)) in
  t = [] \/ exists t', t = t' ++ nl.
Proof.
  unfold session_after.
  apply (session_from_ind
           (fun ses => ocr_text (fst ses) = []
                       \/ exists t', ocr_text (fst ses) = t' ++ nl));
    [|now left].
  intros ses [w ui] IH.
  destruct (rerun_facts ses w ui) as (r & evs & _ & _ & F).
  rewrite (run_ocr_text _ _ _ _ _ _ F).
  destruct (nonempty (ocr_text (fst ses))); [exact IH|].
  destruct (uploaded ui) as [pdf|]; [apply ocr_output_shape | now left].
Qed.

(** X14: in every session, no entry of the history has an empty question:
    the client is only called, and the history only appended to, under
    [if question]. *)
Theorem recorded_questions_not_empty (runs : list interaction) :
  Forall (fun item => nonempty (question item) = true)
    (qa_history (fst (session_after runs))).
Proof.
  unfold session_after.
  apply (session_from_ind
           (fun ses => Forall (fun item => nonempty (question item) = true)
                         (qa_history (fst ses)))); [|constructor].
  intros ses [w ui] IH.
  destruct (script_exact w ui (fst ses)) as (r & s' & evs & E & _ & Hh & _).
  rewrite (rerun_state ses w ui _ _ _ E), Hh.
  apply Forall_app. split; [exact IH|].
  destruct (nonempty (question_input ui)) eqn:Hq;
    rewrite ?andb_false_r; [|constructor].
  destruct (truthy (filled_text s') && is_str (filled_text s'));
    repeat constructor. exact Hq.
Qed.

(** ** Pages and the guard on Document Text *)

Lemma concat_lines_not_nil (texts : list str) :
  texts <> [] -> concat (map (fun t => t ++ nl) texts) <> [].
Proof.
  intros Hne. destruct (concat_lines_end texts Hne) as (t' & ->).
  now destruct t'.
Qed.

(** X15: what an upload into an empty Document Text leaves there depends
    on the pages.  A PDF of at least one page, all of them read, gives a
    non-empty Document Text even when nothing is recognised on any page,
    so that OCR is not run again; a PDF that converts to no page at all
    leaves Document Text empty, and the run reports no error. *)
Theorem extraction_result_by_pages
  (w : world) (ui : widgets) (s : session_state)
  (pdf : bytes) (images : list image) :
  uploaded ui = Some pdf ->
  nonempty (ocr_text s) = false ->
  convert_from_bytes w pdf = inr images ->
  exists r s' evs,
    script w ui s = (r, s', evs)
    /\ (images = [] -> ocr_text s' = [] /\ filter is_error_report evs = [])
    /\ (forall texts,
          images <> [] -> Forall2 (reads w) images texts ->
          nonempty (ocr_text s') = true).
Proof.
  intros Hup Hne Hc.
  destruct (script_facts w ui s) as (r & s' & evs & E & F).
  exists r, s', evs. split; [exact E|].
  pose proof (run_ocr_text _ _ _ _ _ _ F) as Ho.
  rewrite Hne, Hup in Ho. split.
  - intros ->.
    pose proof (pdf_to_text_all_read w pdf [] [] Hc (Forall2_nil _)) as Hp.
    split.
    + rewrite Ho. unfold ocr_output. now rewrite Hp.
    + destruct (script_phases w ui s)
        as (s1 & e1 & s2 & e2 & r3 & s3 & e3 & E1 & E2 & E3 & E').
      rewrite E in E'. injection E' as -> -> ->.
      rewrite upload_and_ocr_run, Hup, Hne, Hp in E1.
      injection E1 as <- <-.
      destruct (show_extracted_text_facts w ui
                  (with_ocr_text s (ocr_output w pdf)))
        as (s2' & e2' & E2' & _ & _ & _ & _ & _ & He2 & _).
      rewrite E2 in E2'. injection E2' as <- <-.
      destruct (show_filled_output_facts w ui s2)
        as (r3' & s3' & e3' & E3' & _ & _ & _ & _ & _ & He3 & _).
      rewrite E3 in E3'. injection E3' as <- <- <-.
      rewrite !filter_app, He2, He3. cbn [snd filter is_error_report app].
      destruct r3; [reflexivity|]. apply filter_history_lines. kinds.
  - intros texts Hi Hr.
    pose proof (pdf_to_text_all_read w pdf images texts Hc Hr) as Hp.
    rewrite Ho. unfold ocr_output. rewrite Hp. cbn [fst].
    assert (Ht : texts <> [])
      by (intros ->; inversion Hr; subst; now apply Hi).
    pose proof (concat_lines_not_nil texts Ht) as Hnn.
    now destruct (concat (map (fun t => t ++ nl) texts)).
Qed.

(** A page on which nothing is recognised still yields a newline. *)
Lemma extraction_result_by_pages_witness :
  exists r s' evs,
    script corrupt_world_readable (upload [37%N]) initial_state = (r, s', evs)
    /\ ocr_text s' = nl.
Proof.
  destruct (extraction_result_by_pages corrupt_world_readable
              (upload [37%N]) initial_state [37%N] [[37%N]]
              eq_refl eq_refl eq_refl)
    as (r & s' & evs & E & _ & _).
  exists r, s', evs. split; [exact E|].
  vm_compute in E. now injection E as _ <- _.
Defined.

(** ** The history of questions and answers *)

Lemma rerun_history (ses : session) (w : world) (ui : widgets) :
  qa_history (fst (rerun ses (w, ui))) =
  qa_history (fst ses)
  ++ (if truthy (filled_text (fst (rerun ses (w, ui))))
         && is_str (filled_text (fst (rerun ses (w, ui))))
         && nonempty (question_input ui)
      then [QA (question_input ui)
              (answer_output w (filled_text (fst (rerun ses (w, ui))))
                 (question_input ui))]
      else []).
Proof.
  destruct (script_exact w ui (fst ses)) as (r & s' & evs & E & _ & Hh & _).
  rewrite (rerun_state ses w ui _ _ _ E). exact Hh.
Qed.

Lemma history_length_asking_runs (runs : list interaction) (ses : session) :
  length (qa_history (fst (session_from ses runs)))
  = length (qa_history (fst ses)) + asking_runs ses runs.
Proof.
  revert ses. induction runs as [|[w ui] runs IH]; intros ses.
  - simpl. lia.
  - change (session_from ses ((w, ui) :: runs))
      with (session_from (rerun ses (w, ui)) runs).
    rewrite IH. cbn [asking_runs snd].
    rewrite (rerun_history ses w ui) at 1.
    destruct (truthy (filled_text (fst (rerun ses (w, ui))))
              && is_str (filled_text (fst (rerun ses (w, ui))))
              && nonempty (question_input ui));
      rewrite length_app; simpl; lia.
Qed.

Lemma history_length_asks (runs : list interaction) :
  length (qa_history (fst (session_after runs)))
  = count is_ask (snd (session_after runs)).
Proof.
  unfold session_after.
  apply (session_from_ind
           (fun ses => length (qa_history (fst ses))
                       = count is_ask (snd ses))); [|reflexivity].
  intros ses [w ui] IH.
  destruct (rerun_facts ses w ui) as (r & evs & _ & Htr & F).
  destruct (run_history _ _ _ _ _ _ F) as (new & Hn & Hlen).
  rewrite Hn, Htr, length_app, count_app. lia.
Qed.

(** A question left in its box is recorded once more by every run. *)
Lemma question_recorded_by_every_run
  (w : world) (ui : widgets) (t : str) (n : nat) :
  nonempty t = true ->
  fill_button ui = false ->
  nonempty (question_input ui) = true ->
  forall ses,
    filled_text (fst ses) = PStr t ->
    length (qa_history (fst (session_from ses (repeat (w, ui) n))))
    = length (qa_history (fst ses)) + n.
Proof.
  intros Ht Hfill Hq.
  induction n as [|n IH]; intros ses Hf.
  - simpl. lia.
  - change (session_from ses (repeat (w, ui) (S n)))
      with (session_from (rerun ses (w, ui)) (repeat (w, ui) n)).
    destruct (script_exact w ui (fst ses))
      as (r & s' & evs & E & Hf' & Hh & _).
    rewrite Hfill in Hf'. cbn [andb] in Hf'. rewrite Hf in Hf'.
    assert (Hs' : fst (rerun ses (w, ui)) = s')
      by exact (rerun_state ses w ui _ _ _ E).
    rewrite IH by (now rewrite Hs').
    rewrite Hs', Hh, Hf', Hq. cbn [truthy is_str].
    rewrite Ht. cbn [andb]. rewrite length_app. simpl. lia.
Qed.

(** C6 (amended): the history is only appended to, so that what it held
    stays at its front in the order of insertion, and every run that is
    not ended by a failing [generate_pdf] displays it in reverse, the
    last entry first.  There is no action of asking apart from running
    the script: a run appends exactly one entry, the question with the
    answer of the client, when Filled Text is a non-empty string and the
    question box is not empty, and no entry otherwise.  So the length of
    the history is the number of such runs, and a question left in its
    box is recorded again by every further run. *)
Theorem qa_history_append_only
  (s : session_state) (w : world) (ui : widgets)
  (runs later : list interaction) :
  (exists r s' evs,
     script w ui s = (r, s', evs)
     /\ qa_history s' =
        qa_history s
        ++ (if truthy (filled_text s') && is_str (filled_text s')
               && nonempty (question_input ui)
            then [QA (question_input ui)
                    (answer_output w (filled_text s') (question_input ui))]
            else [])
     /\ count is_ask evs =
        (if truthy (filled_text s') && is_str (filled_text s')
            && nonempty (question_input ui)
         then 1 else 0)
     /\ filter is_history_line evs =
        match r with
        | inr _ => history_lines (rev (qa_history s'))
        | inl _ => []
        end
     /\ (truthy (filled_text s') && negb (is_str (filled_text s')) = false ->
         r = inr tt))
  /\ (exists more,
        qa_history (fst (session_after (runs ++ later)))
        = qa_history (fst (session_after runs)) ++ more)
  /\ length (qa_history (fst (session_after runs)))
     = asking_runs new_session runs
  /\ length (qa_history (fst (session_after runs)))
     = count is_ask (snd (session_after runs))
  /\ (forall t trace n,
        filled_text s = PStr t ->
        nonempty t = true ->
        fill_button ui = false ->
        nonempty (question_input ui) = true ->
        length (qa_history
                  (fst (session_from (s, trace) (repeat (w, ui) n))))
        = length (qa_history s) + n).
Proof.
  split; [|split; [|split; [|split]]].
  - destruct (script_exact w ui s)
      as (r & s' & evs & E & _ & Hh & Hr & _).
    destruct (script_facts w ui s) as (r0 & s0 & evs0 & E0 & F).
    rewrite E in E0. injection E0 as <- <- <-.
    exists r, s', evs. split; [exact E|]. split; [exact Hh|].
    split; [exact (run_asks _ _ _ _ _ _ F)|].
    split; [exact (run_display _ _ _ _ _ _ F)|].
    intros Hok. now rewrite Hok in Hr.
  - unfold session_after. rewrite session_from_app. apply history_grows.
  - unfold session_after.
    now rewrite (history_length_asking_runs runs new_session).
  - apply history_length_asks.
  - intros t trace n Hf Ht Hfill Hq.
    exact (question_recorded_by_every_run w ui t n Ht Hfill Hq
             (s, trace) Hf).
Qed.

(** After the form is filled, three runs with the same question in the
    box leave three entries. *)
Lemma qa_history_append_only_witness :
  length
    (qa_history
       (fst (session_from
               (session_after [(stub_world, upload_and_fill [37%N])])
               (repeat (stub_world, ask [37%N] (lit "Name?")) 3))))
  = 3.
Proof.
  pose proof (qa_history_append_only
                (fst (session_after [(stub_world, upload_and_fill [37%N])]))
                stub_world (ask [37%N] (lit "Name?")) [] []) as H.
  exact (proj2 (proj2 (proj2 (proj2 H)))
           (fill_prompt (form_page ++ nl))
           (snd (session_after [(stub_world, upload_and_fill [37%N])]))
           3 eq_refl eq_refl eq_refl eq_refl).
Defined.

(** C6 as stated fails: the user asks one question, and a click on the
    fill button while the question is still in its box records it a
    second time; one Ask action leaves two entries. *)
Lemma question_left_in_box_recorded_again :
  ~ (forall runs : list interaction,
       length (qa_history (fst (session_after runs))) = ask_actions runs).
Proof.
  intros H. specialize (H one_question_session).
  vm_compute in H. discriminate.
Qed.
